(** * MineralDB: the top-K sampling-site aggregation of the dashboard

    A shallow embedding of the data selection of the three dashboard
    programs:

    - [DB.py]      : [select_topk_pairs], [build_geo_fig], [build_dot_fig]
                     (module [DB]);
    - [Top20DB.py] : [get_top], [build_dot_fig] (module [Top20DB]);
    - [20DB.py]    : [get_top], [build_dot_fig] (module [DB20]).

    Data model.  A pandas float64 cell is a rational number or NaN: it is
    a [num], an optional canonical rational ([Qc], so that equal numbers are
    equal terms); arithmetic is exact, rounding is not modelled.  A text
    cell is an optional [string].  A frame is a list of typed rows in index
    order together with its column labels.  The frames read here have the
    schema the programs expect: the five basic columns, numeric value
    columns whose labels are pairwise distinct (as [read_csv] delivers
    them), differ from the basic labels and from the helper labels
    ["_keep"] and ["average monthly concentration"], and a unique row
    index.  The name of a mineral is not part of a basic label, so
    [filter(like=mineral)] matches value columns only. *)

From Stdlib Require Import List String Ascii Bool ZArith QArith Qcanon Lia.
From Stdlib Require Import Permutation Sorted DecimalString Qround Qabs.
Import ListNotations.

Local Open Scope string_scope.
Local Open Scope list_scope.

(** ** Cells *)

Definition num := option Qc.
Definition str := option string.

Definition notna {A : Type} (c : option A) : bool :=
  match c with Some _ => true | None => false end.

Definition isna {A : Type} (c : option A) : bool := negb (notna c).

Definition of_Z (z : Z) : Qc := Q2Qc (inject_Z z).
Definition of_nat (n : nat) : Qc := of_Z (Z.of_nat n).

(** [skipna]: the non-null values of a column, in row order. *)
Fixpoint skipna (cells : list num) : list Qc :=
  match cells with
  | [] => []
  | Some v :: rest => v :: skipna rest
  | None :: rest => skipna rest
  end.

Definition series_sum (vs : list Qc) : Qc := fold_left Qcplus vs (of_Z 0).

(** [Series.mean()] with the default [skipna=True] on the values that are
    left: NaN when there is none. *)
Definition mean (vs : list Qc) : num :=
  match vs with
  | [] => None
  | _ :: _ => Some (series_sum vs / of_nat (List.length vs))%Qc
  end.

(** [DataFrame.sum(axis=1, min_count=n)] on one row: the sum of the
    non-null cells, NaN when fewer than [n] cells are non-null. *)
Definition row_sum (min_count : nat) (cells : list num) : num :=
  let vs := skipna cells in
  if (List.length vs <? min_count)%nat then None else Some (series_sum vs).

(** Strict comparison of two means as floats compare: every comparison
    with NaN is false. *)
Definition higher (a b : num) : Prop :=
  match a, b with
  | Some x, Some y => (y < x)%Qc
  | _, _ => False
  end.

(** [mean_ge a b]: [a] ranks at least as high as [b]; NaN ranks last. *)
Definition mean_ge (a b : num) : Prop :=
  match a, b with
  | Some x, Some y => (y <= x)%Qc
  | _, None => True
  | None, Some _ => False
  end.

(** ** Group keys

    [gb = ["Sampling Point", "lat", "long", "Type"]].  A group key is a
    tuple of non-null cells: [groupby] (default [dropna=True]) leaves out
    every row with a null key cell. *)

Record GroupKey : Type := mkKey
  { key_site : string; key_lat : Qc; key_long : Qc; key_type : string }.

Definition GroupKey_eq_dec (a b : GroupKey) : {a = b} + {a <> b}.
Proof.
  decide equality; first [apply string_dec | apply Qc_eq_dec].
Defined.

Definition key_eqb (a b : GroupKey) : bool :=
  if GroupKey_eq_dec a b then true else false.

Definition lex (c : comparison) (d : comparison) : comparison :=
  match c with Eq => d | _ => c end.

(** Lexicographic order of the key tuples, the order in which
    [groupby(..., sort=True)] lists the groups. *)
Definition key_compare (a b : GroupKey) : comparison :=
  lex (String.compare (key_site a) (key_site b))
  (lex (key_lat a ?= key_lat b)%Qc
  (lex (key_long a ?= key_long b)%Qc
       (String.compare (key_type a) (key_type b)))).

Definition key_leb (a b : GroupKey) : bool :=
  match key_compare a b with Gt => false | _ => true end.

(** The columns every working frame keeps:
    [keep_cols = gb + ["YearMonth"]]. *)
Record Basic : Type := mkBasic
  { Sampling_Point : str; lat : num; long : num; Type_ : str;
    YearMonth : str }.

Definition gb (b : Basic) : option GroupKey :=
  match Sampling_Point b, lat b, long b, Type_ b with
  | Some s, Some la, Some lo, Some t => Some (mkKey s la lo t)
  | _, _, _, _ => None
  end.

(** ** Stable insertion sort

    [insert_sorted x l] puts [x] in front of the first element it may
    precede, so elements that compare equal keep their order. *)
Section StableSort.
Context {A : Type}.
Variable leb : A -> A -> bool.

Fixpoint insert_sorted (x : A) (l : list A) : list A :=
  match l with
  | [] => [x]
  | y :: l' => if leb x y then x :: l else y :: insert_sorted x l'
  end.

Fixpoint stable_sort (l : list A) : list A :=
  match l with
  | [] => []
  | x :: l' => insert_sorted x (stable_sort l')
  end.
End StableSort.

(** The mean a left merge on [gb] finds for a key: NaN when the key is
    not in [means]. *)
Fixpoint lookup_mean (means : list (GroupKey * num)) (g : GroupKey) : num :=
  match means with
  | [] => None
  | (g', m) :: rest => if key_eqb g g' then m else lookup_mean rest g
  end.

(** ** The pandas operations of the aggregation

    They are written once, over any row type [R] with its key columns
    [keyof] and its value column [col]. *)
Section Pandas.
Context {R : Type}.
Variable keyof : R -> option GroupKey.
Variable col : R -> num.

Definition in_group (g : GroupKey) (r : R) : bool :=
  match keyof r with Some g' => key_eqb g g' | None => false end.

Fixpoint keys_of (rows : list R) : list GroupKey :=
  match rows with
  | [] => []
  | r :: rest =>
      match keyof r with
      | Some g => g :: keys_of rest
      | None => keys_of rest
      end
  end.

(** The groups of [rows.groupby(gb)]: the distinct non-null keys, sorted. *)
Definition group_keys (rows : list R) : list GroupKey :=
  stable_sort key_leb (nodup GroupKey_eq_dec (keys_of rows)).

Definition group_values (g : GroupKey) (rows : list R) : list Qc :=
  skipna (map col (filter (in_group g) rows)).

(** [rows.groupby(gb, as_index=False)[col].mean()]: one entry per group,
    the mean of the group's non-null values (NaN if it has none). *)
Definition groupby_mean (rows : list R) : list (GroupKey * num) :=
  map (fun g => (g, mean (group_values g rows))) (group_keys rows).

(** [rows.merge(top_keys.assign(_keep=1), on=gb, how="inner")]: the rows
    whose key is one of [top_keys], in the order of [rows].  The keys of
    [top_keys] are distinct, so no row is repeated; they come from a
    [groupby], so none has a null cell and a row with a null key cell
    matches none of them. *)
Definition merge_inner (rows : list R) (top_keys : list GroupKey)
  : list R :=
  filter (fun r => match keyof r with
                   | Some g => existsb (key_eqb g) top_keys
                   | None => false
                   end)
         rows.

(** [rows.merge(means, on=gb, how="left")]: every row with the mean of
    its key. *)
Definition merge_left (rows : list R) (means : list (GroupKey * num))
  : list (R * num) :=
  map (fun r => (r, match keyof r with
                    | Some g => lookup_mean means g
                    | None => None
                    end))
      rows.
End Pandas.

(** Descending order of the means, used on entries whose mean is not NaN. *)
Definition mean_geb (a b : GroupKey * num) : bool :=
  match snd a, snd b with
  | Some x, Some y => match (x ?= y)%Qc with Lt => false | _ => true end
  | Some _, None => true
  | None, Some _ => false
  | None, None => true
  end.

(** The frame in the order [nlargest] ranks it: the entries with a
    non-NaN mean in descending order, ties in their order of appearance,
    followed by the NaN entries. *)
Definition ranking (means : list (GroupKey * num)) : list (GroupKey * num) :=
  let dropped := filter (fun e => notna (snd e)) means in
  let nan_index := filter (fun e => isna (snd e)) means in
  stable_sort mean_geb dropped ++ nan_index.

(** [means.nlargest(n, "average monthly concentration")] (keep="first"):
    nothing for [n <= 0], otherwise the first [n] rows of the ranking.
    (When [n] covers the whole frame pandas sorts with its default sort, so
    the relative position of tied rows may differ there; every row is
    returned in that case.) *)
Definition nlargest (n : Z) (means : list (GroupKey * num))
  : list (GroupKey * num) :=
  if (n <=? 0)%Z then [] else firstn (Z.to_nat n) (ranking means).

(** ** Python dictionaries with string keys, in insertion order *)
Section Dict.
Context {V : Type}.

Definition dict := list (string * V).

Fixpoint dict_get (d : dict) (k : string) : option V :=
  match d with
  | [] => None
  | (k', v) :: rest => if String.eqb k k' then Some v else dict_get rest k
  end.

(** [d[k] = v]: an existing key keeps its position. *)
Fixpoint dict_set (d : dict) (k : string) (v : V) : dict :=
  match d with
  | [] => [(k, v)]
  | (k', v') :: rest =>
      if String.eqb k k' then (k, v) :: rest
      else (k', v') :: dict_set rest k v
  end.
End Dict.
Arguments dict V : clear implicits.

(** ** Exceptions *)
Inductive exn : Type :=
| KeyError (key : string).

Inductive outcome (A : Type) : Type :=
| Returned (a : A)
| Raised (e : exn).
Arguments Returned {A} a.
Arguments Raised {A} e.

Definition raises {A : Type} (o : outcome A) : Prop :=
  exists e, o = Raised e.

(** ** The frames handed to the presenter

    A row of a result frame: the kept basic columns, the value and the
    group mean attached to it.  A frame lists its column labels in order,
    each with the field that holds its cells, so that renaming a column
    changes the label and nothing else. *)
Record Rec : Type := mkRec
  { keep : Basic;
    monthly_concentration : num;
    average_monthly_concentration : num }.

Inductive Field : Type :=
| F_Sampling_Point | F_lat | F_long | F_Type | F_YearMonth
| F_monthly_concentration | F_average_monthly_concentration.

Record DataFrame : Type := mkDataFrame
  { df_columns : list (string * Field); df_rows : list Rec }.

Definition VALUE_COL : string := "monthly concentration".
Definition AVG_COL : string := "average monthly concentration".

Definition basic_cols : list (string * Field) :=
  [("Sampling Point", F_Sampling_Point); ("lat", F_lat); ("long", F_long);
   ("Type", F_Type); ("YearMonth", F_YearMonth)].

(** [basic_cols + [VALUE_COL, AVG_COL]], the columns of every result. *)
Definition result_cols : list (string * Field) :=
  basic_cols ++ [(VALUE_COL, F_monthly_concentration);
                 (AVG_COL, F_average_monthly_concentration)].

Definition rec_key (r : Rec) : option GroupKey := gb (keep r).

Definition has_column (df : DataFrame) (label : string) : bool :=
  existsb (fun c => String.eqb label (fst c)) (df_columns df).

(** The distinct group keys present in a frame. *)
Definition distinct_keys (rows : list Rec) : list GroupKey :=
  nodup GroupKey_eq_dec (keys_of rec_key rows).

(** [s.min()] and [s.max()] skip NaN and are NaN on nothing. *)
Definition Qc_min (x y : Qc) : Qc := if Qclt_le_dec y x then y else x.
Definition Qc_max (x y : Qc) : Qc := if Qclt_le_dec x y then y else x.

Definition series_min (cells : list num) : num :=
  match skipna cells with
  | [] => None
  | v :: vs => Some (fold_left Qc_min vs v)
  end.

Definition series_max (cells : list num) : num :=
  match skipna cells with
  | [] => None
  | v :: vs => Some (fold_left Qc_max vs v)
  end.

(** ** The scatter figure of one metric

    The body of the loop of [build_dot_fig], the same in the three
    programs once the columns are renamed. *)

(** [d.rename(columns=mapping)]: labels that are keys of [mapping] are
    replaced, the cells stay where they are. *)
Definition rename (mapping : dict string) (d : DataFrame) : DataFrame :=
  {| df_columns :=
       map (fun c => match dict_get mapping (fst c) with
                     | Some new => (new, snd c)
                     | None => c
                     end)
           (df_columns d);
     df_rows := df_rows d |}.

Definition dot_renaming : dict string :=
  [(VALUE_COL, "Detected Concentration"); ("YearMonth", "Time")].

Definition num_field (f : Field) (r : Rec) : num :=
  match f with
  | F_lat => lat (keep r)
  | F_long => long (keep r)
  | F_monthly_concentration => monthly_concentration r
  | F_average_monthly_concentration => average_monthly_concentration r
  | F_Sampling_Point | F_Type | F_YearMonth => None
  end.

(** [d[label]] for a numeric column; [KeyError] when no column bears the
    label. *)
Definition num_column (d : DataFrame) (label : string)
  : outcome (list num) :=
  match find (fun c => String.eqb label (fst c)) (df_columns d) with
  | Some c => Returned (map (num_field (snd c)) (df_rows d))
  | None => Raised (KeyError label)
  end.

Record Figure : Type := mkFigure
  { fig_data : DataFrame;
    fig_x : string; fig_y : string; fig_color : string; fig_symbol : string;
    fig_title : string;
    fig_yaxis_range : option (Qc * Qc);
    fig_marker_size : Z }.

(** [max(1.0, 0.05 * (ymax - ymin) if ymax > ymin else 1.0)] *)
Definition pad (ymin ymax : Qc) : Qc :=
  Qc_max (of_Z 1)
         (if Qclt_le_dec ymin ymax
          then (Q2Qc (5 # 100) * (ymax - ymin))%Qc
          else of_Z 1).

Definition dot_figure (m : string) (d : DataFrame) : outcome Figure :=
  match num_column d "Detected Concentration" with
  | Raised e => Raised e
  | Returned cells =>
      let ymin := series_min cells in
      let ymax := series_max cells in
      Returned
        {| fig_data := d;
           fig_x := "Time"; fig_y := "Detected Concentration";
           fig_color := "Sampling Point"; fig_symbol := "Sampling Point";
           fig_title := String.append "Concentration of " m;
           fig_yaxis_range :=
             match ymin, ymax with
             | Some lo, Some hi =>
                 Some ((lo - pad lo hi)%Qc, (hi + pad lo hi)%Qc)
             | _, _ => None
             end;
           fig_marker_size := 12 |}
  end.

(** The loop that renames each frame of the dictionary in place: it
    returns the figures, or the exception that stopped it, together with
    the dictionary as the loop leaves it. *)
Fixpoint dot_loop_inplace (ma : dict DataFrame)
  : outcome (list Figure) * dict DataFrame :=
  match ma with
  | [] => (Returned [], [])
  | (m, d) :: rest =>
      let d' := rename dot_renaming d in
      match dot_figure m d' with
      | Raised e => (Raised e, (m, d') :: rest)
      | Returned fig =>
          let (o, rest') := dot_loop_inplace rest in
          (match o with
           | Returned figures => Returned (fig :: figures)
           | Raised e => Raised e
           end,
           (m, d') :: rest')
      end
  end.

(** The loop that works on a copy of each frame. *)
Fixpoint dot_loop_copy (ma : dict DataFrame) : outcome (list Figure) :=
  match ma with
  | [] => Returned []
  | (name, d) :: rest =>
      let df := rename dot_renaming d in
      match dot_figure name df with
      | Raised e => Raised e
      | Returned fig =>
          match dot_loop_copy rest with
          | Returned figures => Returned (fig :: figures)
          | Raised e => Raised e
          end
      end
  end.

(** ** Text

    The labels and names handled here are ASCII text. *)

(** The characters [str.split()] treats as white space. *)
Definition is_space (c : ascii) : bool :=
  let n := nat_of_ascii c in
  ((9 <=? n) && (n <=? 13) || (28 <=? n) && (n <=? 32))%nat.

(** [split_from s word]: the words of [s], the first one continuing
    [word], the characters read so far of the word under way. *)
Fixpoint split_from (s : string) (word : string) : list string :=
  match s with
  | EmptyString =>
      match word with EmptyString => [] | String _ _ => [word] end
  | String c s' =>
      if is_space c
      then match word with
           | EmptyString => split_from s' EmptyString
           | String _ _ => word :: split_from s' EmptyString
           end
      else split_from s' (String.append word (String c EmptyString))
  end.

(** [s.split()]: the words between runs of white space. *)
Definition split (s : string) : list string := split_from s EmptyString.

(** [words[:words.index(w)]] when [w] is in [words]. *)
Fixpoint words_before (w : string) (words : list string) : list string :=
  match words with
  | [] => []
  | x :: rest => if String.eqb x w then [] else x :: words_before w rest
  end.

(** ** Ranking tables *)

(** The nearest integer to a rational that is not negative, a tie going
    to the even neighbour. *)
Definition round_half_even (q : Q) : Z :=
  let f := Qfloor q in
  match (q - inject_Z f ?= 1 # 2)%Q with
  | Lt => f
  | Gt => (f + 1)%Z
  | Eq => if Z.even f then f else (f + 1)%Z
  end.

Definition decimal (n : Z) : string :=
  NilZero.string_of_uint (N.to_uint (Z.to_N n)).

(** [f"{x:.2f}"] on a float that is a number or NaN: the sign of a
    negative number, the integer part, a point and two digits, the value
    rounded to the nearest hundredth. *)
Definition format_2f (x : num) : string :=
  match x with
  | None => "nan"
  | Some q =>
      let n := round_half_even (Qabs q * 100) in
      let cents := (n mod 100)%Z in
      String.append (if Qlt_le_dec q 0 then "-" else "")
        (String.append (decimal (n / 100))
           (String.append "."
              (String.append (if (cents <? 10)%Z then "0" else "")
                             (decimal cents))))
  end.

(** A row of [d[["Sampling Point", "Type", AVG_COL]]]. *)
Definition Ranked : Type := (str * str * num)%type.

Definition Ranked_eq_dec (a b : Ranked) : {a = b} + {a <> b}.
Proof.
  repeat decide equality; apply Qc_eq_dec.
Defined.

(** A record of a ranking table, [tbl.to_dict("records")]. *)
Record TableRow : Type := mkTableRow
  { row_Sampling_Point : str; row_Type : str; MonthlyMean : string }.

Definition table_row (t : Ranked) : TableRow :=
  mkTableRow (fst (fst t)) (snd (fst t)) (format_2f (snd t)).

Definition str_field (f : Field) (r : Rec) : str :=
  match f with
  | F_Sampling_Point => Sampling_Point (keep r)
  | F_Type => Type_ (keep r)
  | F_YearMonth => YearMonth (keep r)
  | F_lat | F_long | F_monthly_concentration
  | F_average_monthly_concentration => None
  end.

Definition field_of (d : DataFrame) (label : string) : option Field :=
  option_map snd
             (find (fun c => String.eqb label (fst c)) (df_columns d)).

(** [d[["Sampling Point", "Type", AVG_COL]]]: [KeyError] when a label is
    missing (the message of pandas lists the missing labels; the
    exception carries here the first of them). *)
Definition ranked_columns (d : DataFrame) : outcome (list Ranked) :=
  match field_of d "Sampling Point", field_of d "Type", field_of d AVG_COL
  with
  | Some fs, Some ft, Some fa =>
      Returned (map (fun r => (str_field fs r, str_field ft r,
                               num_field fa r))
                    (df_rows d))
  | None, _, _ => Raised (KeyError "Sampling Point")
  | _, None, _ => Raised (KeyError "Type")
  | _, _, None => Raised (KeyError AVG_COL)
  end.

(** [tbl.sort_values(by=[AVG_COL], ascending=False)]: by descending
    mean, NaN last.  (pandas sorts with its default sort, so the relative
    position of rows with the same mean may differ there.) *)
Definition ranked_geb (a b : Ranked) : bool :=
  match snd a, snd b with
  | Some x, Some y => match (x ?= y)%Qc with Lt => false | _ => true end
  | Some _, None => true
  | None, Some _ => false
  | None, None => true
  end.

Definition sort_values_desc (tbl : list Ranked) : list Ranked :=
  stable_sort ranked_geb tbl.

(** [tbl.drop_duplicates()]: the first of every run of equal rows. *)
Fixpoint drop_duplicates (tbl : list Ranked) : list Ranked :=
  match tbl with
  | [] => []
  | t :: rest =>
      t :: filter (fun u => if Ranked_eq_dec t u then false else true)
                  (drop_duplicates rest)
  end.

(** ["Total" not in m] decides the label of a table. *)
Fixpoint has_Total (m : string) : bool :=
  prefix "Total" m
  || match m with
     | EmptyString => false
     | String _ m' => has_Total m'
     end.

Definition table_label (m : string) : string :=
  if has_Total m then "Total Detected Concentration" else m.

(** The loop of [build_table_data] in [DB.py] and [Top20DB.py]: sort,
    then drop the duplicates. *)
Fixpoint table_loop (tbs : dict (list TableRow)) (dfs : dict DataFrame)
  : outcome (dict (list TableRow)) :=
  match dfs with
  | [] => Returned tbs
  | (m, d) :: rest =>
      match ranked_columns d with
      | Raised e => Raised e
      | Returned tbl =>
          table_loop
            (dict_set tbs (table_label m)
               (map table_row (drop_duplicates (sort_values_desc tbl))))
            rest
      end
  end.

(** The loop of [build_table_data] in [20DB.py]: drop the duplicates,
    then sort. *)
Fixpoint table_loop_20 (out : dict (list TableRow)) (dfs : dict DataFrame)
  : outcome (dict (list TableRow)) :=
  match dfs with
  | [] => Returned out
  | (name, df) :: rest =>
      match ranked_columns df with
      | Raised e => Raised e
      | Returned tbl =>
          table_loop_20
            (dict_set out (table_label name)
               (map table_row (sort_values_desc (drop_duplicates tbl))))
            rest
      end
  end.

(** [if DEFAULT_MINERAL not in minerals and len(minerals) > 0:
       DEFAULT_MINERAL = minerals[0]] *)
Definition default_mineral (DEFAULT_MINERAL : string)
  (minerals : list string) : string :=
  match minerals with
  | [] => DEFAULT_MINERAL
  | first :: _ =>
      if existsb (String.eqb DEFAULT_MINERAL) minerals
      then DEFAULT_MINERAL else first
  end.

(** The rows of a table built by sorting and dropping duplicates, in
    either order: distinct rows of the frame, all of them, by descending
    mean. *)
Definition ranked_table_of (tbl out : list Ranked) : Prop :=
  NoDup out /\ (forall t, In t out <-> In t tbl) /\
  StronglySorted (fun a b => mean_ge (snd a) (snd b)) out.

(** The row of the ranking table that a row of a result frame gives. *)
Definition ranked_of (r : Rec) : Ranked :=
  (Sampling_Point (keep r), Type_ (keep r), average_monthly_concentration r).

(** ** Orders given by a comparison *)

(** [cmp] compares as a strict total order does. *)
Definition is_order {A : Type} (cmp : A -> A -> comparison) : Prop :=
  (forall x y, cmp x y = Eq <-> x = y) /\
  (forall x y, cmp y x = CompOpp (cmp x y)) /\
  (forall x y z, cmp x y = Lt -> cmp y z = Lt -> cmp x z = Lt).

(** What [get_top] attaches to a row of the table [df] that it keeps:
    the table's own average when it has one, the mean of [means]
    otherwise. *)
Definition attach (df : DataFrame) (means : list (GroupKey * num))
  (r : Rec) : Rec :=
  mkRec (keep r) (monthly_concentration r)
        (if has_column df AVG_COL
         then average_monthly_concentration r
         else match rec_key r with
              | Some g => lookup_mean means g
              | None => None
              end).

(** * DB.py *)
Module DB.

(** A row of the base table: the basic columns and one cell for each
    value column, in the order of the frame's labels. *)
Record Row : Type := mkRow { basic : Basic; vals : list num }.

Record Frame : Type := mkFrame { columns : list string; rows : list Row }.

Definition row_key (r : Row) : option GroupKey := gb (basic r).

(** [row[m]]: the cell under label [m]. *)
Fixpoint get_col (labels : list string) (cells : list num) (m : string)
  : num :=
  match labels, cells with
  | l :: ls, c :: cs => if String.eqb m l then c else get_col ls cs m
  | _, _ => None
  end.

(** [row[m] = v]: an existing column is overwritten, a new one is
    appended. *)
Fixpoint set_cell (labels : list string) (cells : list num) (m : string)
  (v : num) : list num :=
  match labels, cells with
  | l :: ls, c :: cs =>
      if String.eqb m l then v :: cs else c :: set_cell ls cs m v
  | _, _ => [v]
  end.

Definition set_label (labels : list string) (m : string) : list string :=
  if existsb (String.eqb m) labels then labels else labels ++ [m].

(** [sub in s] on Python strings. *)
Fixpoint contains (s sub : string) : bool :=
  prefix sub s
  || match s with
     | EmptyString => false
     | String _ s' => contains s' sub
     end.

(** [base.filter(like=mineral, axis=1).columns.tolist()] *)
Definition matched_mineral_cols (base : Frame) (mineral : string)
  : list string :=
  filter (fun c => contains c mineral) (columns base).

(** [base.loc[:, basic_cols].copy()] with [basic_cols] extended by [mm]. *)
Definition loc_copy (base : Frame) (mm : list string) : Frame :=
  {| columns := mm;
     rows := map (fun r => mkRow (basic r)
                                 (map (get_col (columns base) (vals r)) mm))
                 (rows base) |}.

(** [df.dropna(subset=subset, how="all")] *)
Definition dropna_all (df : Frame) (subset : list string) : Frame :=
  {| columns := columns df;
     rows := filter (fun r => existsb
                       (fun m => notna (get_col (columns df) (vals r) m))
                       subset)
                    (rows df) |}.

(** [df[m] = series], the series given by its value on each row. *)
Definition setitem (df : Frame) (m : string) (series : Row -> num)
  : Frame :=
  {| columns := set_label (columns df) m;
     rows := map (fun r => mkRow (basic r)
                                 (set_cell (columns df) (vals r) m
                                           (series r)))
                 (rows df) |}.

(** Lines 62-74: the null-pruned copy of the base table with the matched
    columns, and with ["Total"] when more than one column matched.
    [base[mm].sum(axis=1, min_count=1)] is aligned on the row index; the
    row of [Filtered_Base] with that index holds a copy of the same
    cells, from which the sum is taken here. *)
Definition Filtered_Base (base : Frame) (mineral : string) : Frame :=
  let mm := matched_mineral_cols base mineral in
  let fb0 := loc_copy base mm in
  let fb1 := match mm with [] => fb0 | _ :: _ => dropna_all fb0 mm end in
  if (1 <? List.length mm)%nat
  then setitem fb1 "Total"
         (fun r => row_sum 1 (map (get_col mm (vals r)) mm))
  else fb1.

(** [mm] as the loop of line 79 sees it. *)
Definition metrics (base : Frame) (mineral : string) : list string :=
  let mm := matched_mineral_cols base mineral in
  if (1 <? List.length mm)%nat then mm ++ ["Total"] else mm.

Section Metric.
Variable base : Frame.
Variable mineral : string.
Variable k : Z.
Variable m : string.

Definition value (r : Row) : num :=
  get_col (columns (Filtered_Base base mineral)) (vals r) m.

(** Lines 80-83: the rows bearing a value for [m]. *)
Definition fb : list Row :=
  filter (fun r => notna (value r)) (rows (Filtered_Base base mineral)).

(** Lines 85-87 *)
Definition means_df : list (GroupKey * num) :=
  groupby_mean row_key value fb.

(** Line 89 *)
Definition top_keys : list GroupKey := map fst (nlargest k means_df).

(** Lines 91-95: the two merges, the selection of the columns and the
    renaming of [m]. *)
Definition tmp : DataFrame :=
  let kept := merge_inner row_key (rows (Filtered_Base base mineral))
                          top_keys in
  {| df_columns := result_cols;
     df_rows := map (fun ra => mkRec (basic (fst ra)) (value (fst ra))
                                     (snd ra))
                    (merge_left row_key kept means_df) |}.
End Metric.

Definition select_topk_pairs (base : Frame) (mineral : string) (k : Z)
  : dict DataFrame :=
  fold_left (fun out m => dict_set out m (tmp base mineral k m))
            (metrics base mineral) [].

(** The call as Python runs it: no statement of the function raises on
    any [k], it runs to its [return]. *)
Definition call_select_topk_pairs (base : Frame) (mineral : string)
  (k : Z) : outcome (dict DataFrame) :=
  Returned (select_topk_pairs base mineral k).

(** What [build_geo_fig] hands to [px.scatter_geo] and to the layout;
    the title is the format string filled with [geo_title_args]. *)
Record GeoFigure : Type := mkGeoFigure
  { geo_data : DataFrame;
    geo_color : string; geo_lat : string; geo_lon : string;
    geo_hover_name : string; geo_size : string;
    geo_title_args : string * Z }.

Definition build_geo_fig (point_agg : dict DataFrame) (mineral : string)
  (k : Z) : outcome GeoFigure :=
  match dict_get point_agg "Total" with
  | None => Raised (KeyError "Total")
  | Some total_point_agg =>
      Returned
        {| geo_data := total_point_agg;
           geo_color := "Sampling Point"; geo_lat := "lat";
           geo_lon := "long"; geo_hover_name := "Sampling Point";
           geo_size := AVG_COL;
           geo_title_args := (mineral, k) |}
  end.

(** Lines 118-152.  [month_agg] is the mapping [select_topk_pairs]
    returned for this request; its frames are renamed in place. *)
Definition build_dot_fig (month_agg : dict DataFrame) (mineral : string)
  : outcome (list Figure) * dict DataFrame :=
  dot_loop_inplace month_agg.

(** The cells of a base row under the matched columns, [base[mm]]. *)
Definition determinands (base : Frame) (mineral : string) (r : Row)
  : list num :=
  map (get_col (columns base) (vals r)) (matched_mineral_cols base mineral).

(** The rows that survive [dropna(subset=mm, how="all")]: at least one
    matched column holds a value. *)
Definition has_reading (base : Frame) (mineral : string) (r : Row)
  : bool :=
  existsb notna (determinands base mineral r).

(** The value of metric [m] on a row of the base table: the cell of
    column [m], or the row total for the synthetic ["Total"]. *)
Definition metric_value (base : Frame) (mineral : string) (m : string)
  (r : Row) : num :=
  if String.eqb m "Total"
     && (1 <? List.length (matched_mineral_cols base mineral))%nat
  then row_sum 1 (determinands base mineral r)
  else get_col (columns base) (vals r) m.

(** The row of [Filtered_Base] that a kept row of the base table
    becomes. *)
Definition filtered_row (base : Frame) (mineral : string) (r : Row)
  : Row :=
  let mm := matched_mineral_cols base mineral in
  let cells := determinands base mineral r in
  if (1 <? List.length mm)%nat
  then mkRow (basic r) (set_cell mm cells "Total" (row_sum 1 cells))
  else mkRow (basic r) cells.

(** The non-null values of metric [m] over the rows of group [g] in the
    base table. *)
Definition group_readings (base : Frame) (mineral : string) (m : string)
  (g : GroupKey) : list Qc :=
  group_values row_key (metric_value base mineral m) g (rows base).

(** Lines 27-40.  The labels of the basic columns carry no unit, so only
    value columns pass the test of line 28.  [words[0]] raises
    [IndexError] on a label without a word. *)
Inductive IndexError : Type := list_index_out_of_range.

Definition is_mineral_col (c : string) : bool :=
  (contains c "(ug/l)" || contains c "(mg/l)")
  && negb (contains c "Total")
  && (negb (contains c ",") && negb (contains c ":")).

Definition mineral_of (c : string) : IndexError + string :=
  let words := split c in
  if existsb (String.eqb "as") words
  then inr (String.concat " " (words_before "as" words))
  else match words with
       | [] => inl list_index_out_of_range
       | w :: _ => inr w
       end.

Fixpoint minerals_of (cols_total : list string)
  : IndexError + list string :=
  match cols_total with
  | [] => inr []
  | c :: rest =>
      match mineral_of c with
      | inl e => inl e
      | inr mineral =>
          match minerals_of rest with
          | inl e => inl e
          | inr minerals => inr (mineral :: minerals)
          end
      end
  end.

Definition get_minerals (df : Frame) : IndexError + list string :=
  minerals_of (filter is_mineral_col (columns df)).

(** Lines 155-172 *)
Definition build_table_data (point_agg : dict DataFrame)
  : outcome (dict (list TableRow)) :=
  table_loop [] point_agg.

End DB.

(** * Top20DB.py *)
Module Top20DB.

(** Lines 30-43 for one frame [df] of the pickle.  The frame has the
    basic columns and ["monthly concentration"]; when it already has an
    ["average monthly concentration"] column the left merge (suffixes
    [(None, "_y")]) leaves that column under its name and the selection
    of line 41 takes it, not the mean computed here. *)
Section Frame.
Variable k : Z.
Variable df : DataFrame.

Definition means_df : list (GroupKey * num) :=
  groupby_mean rec_key monthly_concentration (df_rows df).

Definition top_keys : list GroupKey := map fst (nlargest k means_df).

Definition tmp : DataFrame :=
  let kept := merge_inner rec_key (df_rows df) top_keys in
  {| df_columns := result_cols;
     df_rows := map (fun ra => mkRec (keep (fst ra))
                                     (monthly_concentration (fst ra))
                                     (if has_column df AVG_COL
                                      then average_monthly_concentration
                                             (fst ra)
                                      else snd ra))
                    (merge_left rec_key kept means_df) |}.
End Frame.

(** The keys of a dictionary are distinct, so assigning
    [summarize[col] = min_dict] for each item of [base] yields the same
    keys in the same order. *)
Definition get_top (base : dict (dict DataFrame)) (k : Z)
  : dict (dict DataFrame) :=
  map (fun item =>
         (fst item,
          map (fun sub => (fst sub, tmp k (snd sub))) (snd item)))
      base.

(** [base[mineral][name]] *)
Definition frame_at (base : dict (dict DataFrame)) (mineral name : string)
  : option DataFrame :=
  match dict_get base mineral with
  | Some sub => dict_get sub name
  | None => None
  end.

Definition call_get_top (base : dict (dict DataFrame)) (k : Z)
  : outcome (dict (dict DataFrame)) :=
  Returned (get_top base k).

(** Lines 74-100.  [month_agg] is the module's [BASE]; each frame of
    [month_agg[mineral]] is renamed in place, so the function returns
    the store as it leaves it. *)
Definition build_dot_fig (month_agg : dict (dict DataFrame))
  (mineral : string)
  : outcome (list Figure) * dict (dict DataFrame) :=
  match dict_get month_agg mineral with
  | None => (Raised (KeyError mineral), month_agg)
  | Some ma =>
      let (o, ma') := dot_loop_inplace ma in
      (o, dict_set month_agg mineral ma')
  end.

(** Lines 49-50 *)
Definition get_minerals (dfs : dict (dict DataFrame)) : list string :=
  map fst dfs.

(** Lines 56-71: [point_agg[mineral]["Total"]] raises [KeyError] on a
    missing key. *)
Definition build_geo_fig (point_agg : dict (dict DataFrame))
  (mineral : string) (k : Z) : outcome DB.GeoFigure :=
  match dict_get point_agg mineral with
  | None => Raised (KeyError mineral)
  | Some sub =>
      match dict_get sub "Total" with
      | None => Raised (KeyError "Total")
      | Some total_point_agg =>
          Returned
            {| DB.geo_data := total_point_agg;
               DB.geo_color := "Sampling Point"; DB.geo_lat := "lat";
               DB.geo_lon := "long"; DB.geo_hover_name := "Sampling Point";
               DB.geo_size := AVG_COL;
               DB.geo_title_args := (mineral, k) |}
      end
  end.

(** Lines 103-121 *)
Definition build_table_data (point_agg : dict (dict DataFrame))
  (mineral : string) : outcome (dict (list TableRow)) :=
  match dict_get point_agg mineral with
  | None => Raised (KeyError mineral)
  | Some dfs => table_loop [] dfs
  end.

End Top20DB.

(** * 20DB.py *)
Module DB20.

(** [get_top] (lines 32-61) is the function of [Top20DB.py] with other
    local names. *)
Definition get_top := Top20DB.get_top.

(** Lines 165-194: the rename is done on [d.copy()], the store is only
    read.  (The conversion of a period-typed time column of the copy to
    timestamps changes the representation of its cells, not modelled.) *)
Definition build_dot_fig (month_agg : dict (dict DataFrame))
  (mineral : string)
  : outcome (list Figure) * dict (dict DataFrame) :=
  match dict_get month_agg mineral with
  | None => (Raised (KeyError mineral), month_agg)
  | Some ma => (dot_loop_copy ma, month_agg)
  end.

(** Lines 64-65 *)
Definition get_minerals (dfs : dict (dict DataFrame)) : list string :=
  map fst dfs.

(** [df.drop(columns=[label], errors="ignore")] *)
Definition drop_column (df : DataFrame) (label : string) : DataFrame :=
  {| df_columns :=
       filter (fun c => negb (String.eqb label (fst c))) (df_columns df);
     df_rows := df_rows df |}.

(** [df[cols]]: the columns of [cols] in that order, [KeyError] when one
    is missing (the exception carries here the first missing label). *)
Fixpoint select_columns (columns : list (string * Field))
  (cols : list string) : outcome (list (string * Field)) :=
  match cols with
  | [] => Returned []
  | label :: rest =>
      match find (fun c => String.eqb label (fst c)) columns with
      | None => Raised (KeyError label)
      | Some c =>
          match select_columns columns rest with
          | Raised e => Raised e
          | Returned cs => Returned (c :: cs)
          end
      end
  end.

Definition geo_cols : list string :=
  ["Sampling Point"; "lat"; "long"; "Type"; AVG_COL].

(** Lines 141-162: the figure is drawn from a copy of the "Total" frame
    cut down to [geo_cols], with the type and the mean shown on hover. *)
Record HoverFigure : Type := mkHoverFigure
  { geo_figure : DB.GeoFigure; geo_hover_data : list (string * string) }.

Definition build_geo_fig (point_agg : dict (dict DataFrame))
  (mineral : string) (k : Z) : outcome HoverFigure :=
  match dict_get point_agg mineral with
  | None => Raised (KeyError mineral)
  | Some sub =>
      match dict_get sub "Total" with
      | None => Raised (KeyError "Total")
      | Some total =>
          let df := drop_column total "YearMonth" in
          match select_columns (df_columns df) geo_cols with
          | Raised e => Raised e
          | Returned cs =>
              Returned
                {| geo_figure :=
                     {| DB.geo_data := {| df_columns := cs;
                                          df_rows := df_rows df |};
                        DB.geo_color := "Sampling Point";
                        DB.geo_lat := "lat"; DB.geo_lon := "long";
                        DB.geo_hover_name := "Sampling Point";
                        DB.geo_size := AVG_COL;
                        DB.geo_title_args := (mineral, k) |};
                   geo_hover_data := [("Type", "True"); (AVG_COL, ":.2f")] |}
          end
      end
  end.

(** Lines 197-214 *)
Definition build_table_data (point_agg : dict (dict DataFrame))
  (mineral : string) : outcome (dict (list TableRow)) :=
  match dict_get point_agg mineral with
  | None => Raised (KeyError mineral)
  | Some dfs => table_loop_20 [] dfs
  end.

End DB20.

(** ** What a top-k selection is

    [top] is drawn from the groups of [means] without repetition, holds
    [k] of them or all of them when there are fewer, no group left out has
    a strictly higher mean than a group in it, and it is listed by
    descending mean. *)
Definition is_top_k (k : Z) (means : list (GroupKey * num))
  (top : list GroupKey) : Prop :=
  incl top (map fst means) /\
  NoDup top /\
  List.length top = Nat.min (Z.to_nat k) (List.length means) /\
  (forall g g', In g top -> In g' (map fst means) -> ~ In g' top ->
                ~ higher (lookup_mean means g') (lookup_mean means g)) /\
  StronglySorted
    (fun g1 g2 => mean_ge (lookup_mean means g1) (lookup_mean means g2)) top.

(** ** Sample tables *)
Module Sample.

Definition reading (z : Z) : num := Some (of_Z z).

Definition at_site (s ym : string) : Basic :=
  mkBasic (Some s) (reading 54) (reading (-3)) (Some "RIVER") (Some ym).

Definition site_key (s : string) : GroupKey :=
  mkKey s (of_Z 54) (of_Z (-3)) "RIVER".

(** Two columns match ["Magnesium"], one matches ["Calcium"]; the last
    row has no magnesium reading. *)
Definition base_two : DB.Frame :=
  DB.mkFrame
    ["Magnesium (mg/l)"; "Magnesium, Dissolved (mg/l)"; "Calcium (mg/l)"]
    [DB.mkRow (at_site "A" "2025-01") [reading 5; None; reading 7];
     DB.mkRow (at_site "A" "2025-02") [None; reading 3; None];
     DB.mkRow (at_site "B" "2025-01") [reading 1; reading 1; reading 2];
     DB.mkRow (at_site "C" "2025-01") [None; None; reading 9]].

(** A table whose only value column is itself labelled ["Total"]. *)
Definition base_total : DB.Frame :=
  DB.mkFrame ["Total"] [DB.mkRow (at_site "A" "2025-01") [reading 5]].

Definition pickle_cols : list (string * Field) :=
  basic_cols ++ [(VALUE_COL, F_monthly_concentration)].

(** A pickled frame whose only group has no value at all. *)
Definition df_null : DataFrame :=
  mkDataFrame pickle_cols [mkRec (at_site "A" "2025-01") None None].

Definition df_sites : DataFrame :=
  mkDataFrame pickle_cols
    [mkRec (at_site "A" "2025-01") (reading 4) None;
     mkRec (at_site "B" "2025-01") (reading 9) None;
     mkRec (at_site "A" "2025-02") (reading 6) None;
     mkRec (at_site "C" "2025-01") None None].

Definition raw_base : dict (dict DataFrame) :=
  [("Magnesium", [("Total", df_sites)])].

Definition raw_null : dict (dict DataFrame) :=
  [("Magnesium", [("Total", df_null)])].

(** The module-level [BASE] of [Top20DB.py] after [get_top]. *)
Definition BASE : dict (dict DataFrame) := Top20DB.get_top raw_base 5.

End Sample.

(** * Facts about the pandas operations *)

(** ** Keys and sorting *)

Lemma key_eqb_true (a b : GroupKey) : key_eqb a b = true <-> a = b.
Proof.
  unfold key_eqb. destruct (GroupKey_eq_dec a b); split; congruence.
Qed.

Lemma key_eqb_refl (a : GroupKey) : key_eqb a a = true.
Proof. now apply key_eqb_true. Qed.

Lemma existsb_key_eqb (g : GroupKey) (l : list GroupKey) :
  existsb (key_eqb g) l = true <-> In g l.
Proof.
  rewrite existsb_exists. split.
  - intros [x [Hx Heq]]. apply key_eqb_true in Heq. now subst.
  - intros H. exists g. split; [assumption | apply key_eqb_refl].
Qed.

Section StableSortFacts.
Context {A : Type}.
Variable leb : A -> A -> bool.

Lemma insert_sorted_perm (x : A) (l : list A) :
  Permutation (x :: l) (insert_sorted leb x l).
Proof.
  induction l as [|y l IH]; simpl.
  - apply Permutation_refl.
  - destruct (leb x y).
    + apply Permutation_refl.
    + apply perm_trans with (y :: x :: l).
      * apply perm_swap.
      * now apply perm_skip.
Qed.

Lemma stable_sort_perm (l : list A) : Permutation l (stable_sort leb l).
Proof.
  induction l as [|x l IH]; simpl.
  - apply perm_nil.
  - apply perm_trans with (x :: stable_sort leb l).
    + now apply perm_skip.
    + apply insert_sorted_perm.
Qed.

Lemma stable_sort_In (x : A) (l : list A) :
  In x (stable_sort leb l) <-> In x l.
Proof.
  split; apply Permutation_in;
    [apply Permutation_sym |]; apply stable_sort_perm.
Qed.

Lemma stable_sort_length (l : list A) :
  List.length (stable_sort leb l) = List.length l.
Proof. symmetry. apply Permutation_length, stable_sort_perm. Qed.

Variable ord : A -> A -> Prop.
Hypothesis leb_ord : forall x y, leb x y = true -> ord x y.
Hypothesis leb_total : forall x y, leb x y = false -> ord y x.
Hypothesis ord_trans : forall x y z, ord x y -> ord y z -> ord x z.

Lemma insert_sorted_sorted (x : A) (l : list A) :
  StronglySorted ord l -> StronglySorted ord (insert_sorted leb x l).
Proof.
  induction 1 as [|y l Hs IH Hall]; simpl.
  - constructor; constructor.
  - destruct (leb x y) eqn:E.
    + constructor.
      * now constructor.
      * constructor.
        -- now apply leb_ord.
        -- apply leb_ord in E.
           eapply Forall_impl; [|exact Hall].
           intros z Hz. now apply ord_trans with y.
    + constructor; [exact IH|].
      apply Forall_forall. intros z Hz.
      apply (Permutation_in _ (Permutation_sym (insert_sorted_perm x l)))
        in Hz.
      destruct Hz as [<-|Hz].
      * now apply leb_total.
      * rewrite Forall_forall in Hall. now apply Hall.
Qed.

Lemma stable_sort_sorted (l : list A) :
  StronglySorted ord (stable_sort leb l).
Proof.
  induction l as [|x l IH]; simpl.
  - constructor.
  - now apply insert_sorted_sorted.
Qed.
End StableSortFacts.

Section SortedFacts.
Context {A : Type}.
Variable ord : A -> A -> Prop.

Lemma StronglySorted_app_inv (l1 l2 : list A) :
  StronglySorted ord (l1 ++ l2) ->
  StronglySorted ord l1 /\ StronglySorted ord l2 /\
  (forall a b, In a l1 -> In b l2 -> ord a b).
Proof.
  induction l1 as [|x l1 IH]; simpl; intros H.
  - repeat split; [constructor | assumption | intros a b []].
  - apply StronglySorted_inv in H. destruct H as [Hs Hall].
    destruct (IH Hs) as [H1 [H2 H3]].
    rewrite Forall_forall in Hall.
    repeat split.
    + constructor; [assumption|].
      apply Forall_forall. intros z Hz. apply Hall, in_or_app. now left.
    + assumption.
    + intros a b [<-|Ha] Hb.
      * apply Hall, in_or_app. now right.
      * now apply H3.
Qed.

Lemma StronglySorted_app (l1 l2 : list A) :
  StronglySorted ord l1 -> StronglySorted ord l2 ->
  (forall a b, In a l1 -> In b l2 -> ord a b) ->
  StronglySorted ord (l1 ++ l2).
Proof.
  induction l1 as [|x l1 IH]; simpl; intros H1 H2 H3.
  - assumption.
  - apply StronglySorted_inv in H1. destruct H1 as [Hs Hall].
    constructor.
    + apply IH; auto.
    + apply Forall_forall. intros z Hz.
      apply in_app_or in Hz. destruct Hz as [Hz|Hz].
      * rewrite Forall_forall in Hall. now apply Hall.
      * apply H3; [now left | assumption].
Qed.
End SortedFacts.

(** ** Ranking and [nlargest] *)

Lemma mean_geb_ord (a b : GroupKey * num) :
  mean_geb a b = true -> mean_ge (snd a) (snd b).
Proof.
  unfold mean_geb, mean_ge.
  destruct (snd a) as [x|], (snd b) as [y|]; try easy.
  destruct (x ?= y)%Qc eqn:E; try discriminate; intros _.
  - apply Qceq_alt in E. subst. apply Qcle_refl.
  - apply Qclt_le_weak. now apply Qcgt_alt.
Qed.

Lemma mean_geb_total (a b : GroupKey * num) :
  mean_geb a b = false -> mean_ge (snd b) (snd a).
Proof.
  unfold mean_geb, mean_ge.
  destruct (snd a) as [x|], (snd b) as [y|]; try easy.
  destruct (x ?= y)%Qc eqn:E; try discriminate; intros _.
  apply Qclt_le_weak. now apply Qclt_alt.
Qed.

Lemma mean_ge_trans (a b c : num) : mean_ge a b -> mean_ge b c -> mean_ge a c.
Proof.
  unfold mean_ge. destruct a, b, c; try easy.
  intros H1 H2. now apply Qcle_trans with q0.
Qed.

Lemma mean_ge_not_higher (a b : num) : mean_ge a b -> ~ higher b a.
Proof.
  unfold mean_ge, higher. destruct a, b; try easy.
  intros H. now apply Qcle_not_lt.
Qed.

Lemma filter_split_perm {A : Type} (f : A -> bool) (l : list A) :
  Permutation (filter f l ++ filter (fun x => negb (f x)) l) l.
Proof.
  induction l as [|x l IH]; simpl.
  - apply perm_nil.
  - destruct (f x); simpl.
    + now apply perm_skip.
    + apply Permutation_sym, Permutation_cons_app, Permutation_sym, IH.
Qed.

Lemma StronglySorted_pairwise {A : Type} (ord : A -> A -> Prop) (l : list A) :
  (forall a b, In a l -> In b l -> ord a b) -> StronglySorted ord l.
Proof.
  induction l as [|x l IH]; intros H.
  - constructor.
  - constructor.
    + apply IH. intros a b Ha Hb. apply H; now right.
    + apply Forall_forall. intros z Hz. apply H; [now left | now right].
Qed.

Section Nlargest.
Variable n : Z.
Variable means : list (GroupKey * num).

Let ranks (a b : GroupKey * num) : Prop := mean_ge (snd a) (snd b).

Lemma nlargest_unfold :
  nlargest n means = if (n <=? 0)%Z then [] else firstn (Z.to_nat n) (ranking means).
Proof. reflexivity. Qed.

Lemma ranking_perm : Permutation (ranking means) means.
Proof.
  unfold ranking.
  eapply perm_trans; [|apply (filter_split_perm (fun e => notna (snd e)))].
  apply Permutation_app_tail, Permutation_sym, stable_sort_perm.
Qed.

Lemma ranking_sorted : StronglySorted ranks (ranking means).
Proof.
  unfold ranking. apply StronglySorted_app.
  - apply stable_sort_sorted with (ord := ranks).
    + apply mean_geb_ord.
    + apply mean_geb_total.
    + intros x y z. apply mean_ge_trans.
  - apply StronglySorted_pairwise. intros a b _ Hb.
    apply filter_In in Hb. destruct Hb as [_ Hb].
    destruct a as [ga [va|]], b as [gb' [vb|]]; now cbn in *.
  - intros a b _ Hb. apply filter_In in Hb. destruct Hb as [_ Hb].
    destruct a as [ga [va|]], b as [gb' [vb|]]; now cbn in *.
Qed.

Lemma nlargest_firstn :
  nlargest n means = firstn (Z.to_nat n) (ranking means).
Proof.
  rewrite nlargest_unfold. destruct (n <=? 0)%Z eqn:E; [|reflexivity].
  apply Z.leb_le in E. replace (Z.to_nat n) with 0%nat by lia.
  reflexivity.
Qed.

Lemma nlargest_incl (e : GroupKey * num) :
  In e (nlargest n means) -> In e means.
Proof.
  rewrite nlargest_firstn. intros H.
  apply (Permutation_in _ ranking_perm).
  rewrite <- (firstn_skipn (Z.to_nat n) (ranking means)).
  apply in_or_app. now left.
Qed.

Lemma nlargest_length :
  List.length (nlargest n means)
  = Nat.min (Z.to_nat n) (List.length means).
Proof.
  rewrite nlargest_firstn, length_firstn.
  now rewrite (Permutation_length ranking_perm).
Qed.

Lemma nlargest_sorted : StronglySorted ranks (nlargest n means).
Proof.
  rewrite nlargest_firstn.
  pose proof ranking_sorted as H.
  rewrite <- (firstn_skipn (Z.to_nat n) (ranking means)) in H.
  now apply StronglySorted_app_inv in H.
Qed.

Lemma nlargest_best (s g : GroupKey * num) :
  In s (nlargest n means) -> In g means -> ~ In g (nlargest n means) ->
  mean_ge (snd s) (snd g).
Proof.
  rewrite nlargest_firstn. intros Hs Hg Hng.
  pose proof ranking_sorted as H.
  rewrite <- (firstn_skipn (Z.to_nat n) (ranking means)) in H.
  apply StronglySorted_app_inv in H. destruct H as [_ [_ H]].
  apply (H s g Hs).
  apply (Permutation_in _ (Permutation_sym ranking_perm)) in Hg.
  rewrite <- (firstn_skipn (Z.to_nat n) (ranking means)) in Hg.
  apply in_app_or in Hg. destruct Hg as [Hg|Hg]; [contradiction|assumption].
Qed.

Lemma nlargest_keys_NoDup :
  NoDup (map fst means) -> NoDup (map fst (nlargest n means)).
Proof.
  intros H. rewrite nlargest_firstn.
  apply (Permutation_NoDup
           (Permutation_map fst (Permutation_sym ranking_perm))) in H.
  rewrite <- (firstn_skipn (Z.to_nat n) (ranking means)), map_app in H.
  now apply NoDup_app_remove_r in H.
Qed.

(** When [n] covers the entries with a mean, each of them is taken. *)
Lemma nlargest_all (e : GroupKey * num) :
  (List.length (filter (fun e => notna (snd e)) means) <= Z.to_nat n)%nat ->
  In e means -> notna (snd e) = true -> In e (nlargest n means).
Proof.
  intros Hlen He Hna. rewrite nlargest_firstn.
  unfold ranking. rewrite firstn_app. apply in_or_app. left.
  rewrite firstn_all2 by (rewrite stable_sort_length; exact Hlen).
  apply stable_sort_In, filter_In. now split.
Qed.
End Nlargest.

(** ** Lookups, selections, groups and dictionaries *)

Section LookupFacts.
Variable means : list (GroupKey * num).
Hypothesis keys_distinct : NoDup (map fst means).

Lemma lookup_mean_In (g : GroupKey) (v : num) :
  In (g, v) means -> lookup_mean means g = v.
Proof.
  clear -keys_distinct.
  induction means as [|[g' v'] l IH]; simpl; intros H; [easy|].
  inversion keys_distinct as [|? ? Hnotin Hnd]; subst.
  destruct H as [H|H].
  - inversion H; subst. now rewrite key_eqb_refl.
  - destruct (key_eqb g g') eqn:E.
    + apply key_eqb_true in E. subst. exfalso. apply Hnotin.
      now apply (in_map fst) in H.
    + now apply IH.
Qed.

Lemma In_lookup_mean (g : GroupKey) :
  In g (map fst means) -> In (g, lookup_mean means g) means.
Proof.
  intros H. apply in_map_iff in H. destruct H as [[g' v] [Heq H]].
  simpl in Heq. subst g'. now rewrite (lookup_mean_In g v H).
Qed.
End LookupFacts.

Lemma StronglySorted_map {A B : Type} (f : A -> B) (ord : B -> B -> Prop)
  (l : list A) :
  StronglySorted (fun a b => ord (f a) (f b)) l ->
  StronglySorted ord (map f l).
Proof.
  induction 1 as [|x l Hs IH Hall]; simpl; constructor.
  - exact IH.
  - apply Forall_forall. intros z Hz. apply in_map_iff in Hz.
    destruct Hz as [a [<- Ha]]. rewrite Forall_forall in Hall.
    now apply Hall.
Qed.

Lemma StronglySorted_weaken {A : Type} (ord ord' : A -> A -> Prop)
  (l : list A) :
  (forall a b, In a l -> In b l -> ord a b -> ord' a b) ->
  StronglySorted ord l -> StronglySorted ord' l.
Proof.
  intros Himp H. induction H as [|x l Hs IH Hall]; constructor.
  - apply IH. intros a b Ha Hb. apply Himp; now right.
  - rewrite Forall_forall in *. intros z Hz.
    apply Himp; [now left | now right | now apply Hall].
Qed.

(** The selection [map fst (nlargest n means)] when the keys of [means]
    are distinct, as those of a [groupby] are. *)
Section TopKeys.
Variable n : Z.
Variable means : list (GroupKey * num).
Hypothesis keys_distinct : NoDup (map fst means).

Let top : list GroupKey := map fst (nlargest n means).

Lemma top_entry (g : GroupKey) :
  In g top -> In (g, lookup_mean means g) (nlargest n means).
Proof.
  intros H. apply in_map_iff in H. destruct H as [[g' v] [Heq H]].
  simpl in Heq. subst g'.
  now rewrite (lookup_mean_In means keys_distinct g v
                 (nlargest_incl n means _ H)).
Qed.

Lemma top_incl (g : GroupKey) : In g top -> In g (map fst means).
Proof.
  intros H. apply top_entry, nlargest_incl in H.
  now apply (in_map fst) in H.
Qed.

Lemma top_NoDup : NoDup top.
Proof. now apply nlargest_keys_NoDup. Qed.

Lemma top_length :
  List.length top = Nat.min (Z.to_nat n) (List.length means).
Proof. unfold top. now rewrite length_map, nlargest_length. Qed.

Lemma top_best (g g' : GroupKey) :
  In g top -> In g' (map fst means) -> ~ In g' top ->
  mean_ge (lookup_mean means g) (lookup_mean means g').
Proof.
  intros Hg Hg' Hout.
  apply (nlargest_best n means (g, lookup_mean means g)
           (g', lookup_mean means g')).
  - now apply top_entry.
  - now apply In_lookup_mean.
  - intros H. apply Hout. now apply (in_map fst) in H.
Qed.

Lemma top_sorted :
  StronglySorted
    (fun g1 g2 => mean_ge (lookup_mean means g1) (lookup_mean means g2))
    top.
Proof.
  apply StronglySorted_map.
  apply StronglySorted_weaken
    with (ord := fun a b => mean_ge (snd a) (snd b));
    [|apply nlargest_sorted].
  intros [g1 v1] [g2 v2] H1 H2. simpl.
  apply nlargest_incl in H1, H2.
  now rewrite (lookup_mean_In means keys_distinct g1 v1 H1),
              (lookup_mean_In means keys_distinct g2 v2 H2).
Qed.

Lemma top_all (g : GroupKey) :
  (List.length (filter (fun e => notna (snd e)) means) <= Z.to_nat n)%nat ->
  In g (map fst means) -> notna (lookup_mean means g) = true -> In g top.
Proof.
  intros Hlen Hg Hna.
  apply (in_map fst) with (x := (g, lookup_mean means g)).
  apply nlargest_all; [assumption | now apply In_lookup_mean | assumption].
Qed.
End TopKeys.

Section GroupbyFacts.
Context {R : Type}.
Variable keyof : R -> option GroupKey.
Variable col : R -> num.

Lemma keys_of_In (g : GroupKey) (rows : list R) :
  In g (keys_of keyof rows) <-> exists r, In r rows /\ keyof r = Some g.
Proof.
  induction rows as [|r rows IH]; simpl.
  - split; [easy | now intros [r [[] _]]].
  - destruct (keyof r) as [g'|] eqn:E; simpl; rewrite IH; split.
    + intros [<-|[r' [Hin Hk]]]; [now exists r; auto | exists r'; auto].
    + intros [r' [[<-|Hin] Hk]]; [left; congruence | right; now exists r'].
    + intros [r' [Hin Hk]]. exists r'; auto.
    + intros [r' [[<-|Hin] Hk]]; [congruence | now exists r'].
Qed.

Lemma group_keys_In (g : GroupKey) (rows : list R) :
  In g (group_keys keyof rows) <-> exists r, In r rows /\ keyof r = Some g.
Proof.
  unfold group_keys. now rewrite stable_sort_In, nodup_In, keys_of_In.
Qed.

Lemma group_keys_NoDup (rows : list R) : NoDup (group_keys keyof rows).
Proof.
  unfold group_keys.
  eapply Permutation_NoDup; [apply stable_sort_perm | apply NoDup_nodup].
Qed.

Lemma groupby_mean_keys (rows : list R) :
  map fst (groupby_mean keyof col rows) = group_keys keyof rows.
Proof.
  unfold groupby_mean. rewrite map_map. simpl. apply map_id.
Qed.

Lemma groupby_mean_NoDup (rows : list R) :
  NoDup (map fst (groupby_mean keyof col rows)).
Proof. rewrite groupby_mean_keys. apply group_keys_NoDup. Qed.

Lemma lookup_groupby_mean (g : GroupKey) (rows : list R) :
  In g (group_keys keyof rows) ->
  lookup_mean (groupby_mean keyof col rows) g
  = mean (group_values keyof col g rows).
Proof.
  intros H. apply lookup_mean_In; [apply groupby_mean_NoDup|].
  unfold groupby_mean. apply in_map_iff. now exists g.
Qed.

Lemma in_group_true (g : GroupKey) (r : R) :
  in_group keyof g r = true <-> keyof r = Some g.
Proof.
  unfold in_group. destruct (keyof r) as [g'|].
  - rewrite key_eqb_true. split; congruence.
  - split; discriminate.
Qed.
End GroupbyFacts.

Lemma mean_None (vs : list Qc) : mean vs = None <-> vs = [].
Proof. destruct vs; simpl; split; congruence. Qed.

Lemma skipna_nil (cells : list num) :
  skipna cells = [] <-> forall c, In c cells -> c = None.
Proof.
  induction cells as [|[v|] cells IH]; simpl.
  - split; [now intros _ c [] | reflexivity].
  - split; [discriminate | intros H; now specialize (H (Some v) (or_introl eq_refl))].
  - rewrite IH. split.
    + intros H c [<-|Hc]; auto.
    + intros H c Hc. apply H. now right.
Qed.

Lemma skipna_filter_notna (cells : list num) :
  skipna (filter notna cells) = skipna cells.
Proof.
  induction cells as [|[v|] cells IH]; simpl; congruence.
Qed.

Section DictFacts.
Context {V : Type}.

Lemma dict_get_set_eq (d : dict V) (k : string) (v : V) :
  dict_get (dict_set d k v) k = Some v.
Proof.
  induction d as [|[k' v'] d IH]; simpl.
  - now rewrite String.eqb_refl.
  - destruct (String.eqb k k') eqn:E; simpl.
    + now rewrite String.eqb_refl.
    + now rewrite E.
Qed.

Lemma dict_get_set_neq (d : dict V) (k k' : string) (v : V) :
  k' <> k -> dict_get (dict_set d k v) k' = dict_get d k'.
Proof.
  intros Hne. induction d as [|[k0 v0] d IH]; simpl.
  - destruct (String.eqb k' k) eqn:E; [|reflexivity].
    apply String.eqb_eq in E. contradiction.
  - destruct (String.eqb k k0) eqn:E; simpl.
    + apply String.eqb_eq in E. subst k0.
      destruct (String.eqb k' k) eqn:E'; [|reflexivity].
      apply String.eqb_eq in E'. contradiction.
    + now rewrite IH.
Qed.

(** The dictionary a loop [for m in ms: out[m] = f(m)] builds. *)
Lemma dict_get_fold (f : string -> V) (ms : list string) (init : dict V)
  (k : string) :
  dict_get (fold_left (fun out m => dict_set out m (f m)) ms init) k
  = if existsb (String.eqb k) ms then Some (f k) else dict_get init k.
Proof.
  revert init. induction ms as [|m ms IH]; intros init; simpl.
  - reflexivity.
  - rewrite IH. destruct (existsb (String.eqb k) ms) eqn:E.
    + now rewrite orb_true_r.
    + rewrite orb_false_r. destruct (String.eqb k m) eqn:E'.
      * apply String.eqb_eq in E'. subst. apply dict_get_set_eq.
      * apply dict_get_set_neq. intros ->.
        now rewrite String.eqb_refl in E'.
Qed.

Lemma dict_get_map {W : Type} (f : V -> W) (d : dict V) (k : string) :
  dict_get (map (fun item => (fst item, f (snd item))) d) k
  = option_map f (dict_get d k).
Proof.
  induction d as [|[k' v] d IH]; simpl; [reflexivity|].
  now destruct (String.eqb k k').
Qed.
End DictFacts.

(** ** Frames under a change of rows *)

Lemma filter_map_comm {A B : Type} (p : B -> bool) (h : A -> B) (l : list A) :
  filter p (map h l) = map h (filter (fun x => p (h x)) l).
Proof.
  induction l as [|x l IH]; simpl; [reflexivity|].
  destruct (p (h x)); simpl; now rewrite IH.
Qed.

Lemma filter_filter_sub {A : Type} (p q : A -> bool) (l : list A) :
  (forall x, In x l -> p x = true -> q x = true) ->
  filter p (filter q l) = filter p l.
Proof.
  induction l as [|x l IH]; simpl; intros H; [reflexivity|].
  destruct (q x) eqn:Eq; simpl.
  - destruct (p x); rewrite IH; auto.
  - destruct (p x) eqn:Ep.
    + rewrite (H x (or_introl eq_refl) Ep) in Eq. discriminate.
    + apply IH. auto.
Qed.

Lemma existsb_map {A B : Type} (p : B -> bool) (h : A -> B) (l : list A) :
  existsb (fun x => p (h x)) l = existsb p (map h l).
Proof. induction l as [|x l IH]; simpl; congruence. Qed.

Lemma existsb_eqb_In (m : string) (l : list string) :
  existsb (String.eqb m) l = true <-> In m l.
Proof.
  rewrite existsb_exists. split.
  - intros [x [Hx E]]. apply String.eqb_eq in E. now subst.
  - intros H. exists m. split; [assumption | apply String.eqb_refl].
Qed.

Section GroupbyMap.
Context {A B : Type}.
Variable keyof : B -> option GroupKey.
Variable col : B -> num.
Variable keyof' : A -> option GroupKey.
Variable col' : A -> num.
Variable h : A -> B.
Hypothesis key_h : forall x, keyof (h x) = keyof' x.
Hypothesis col_h : forall x, col (h x) = col' x.

Lemma keys_of_map (l : list A) :
  keys_of keyof (map h l) = keys_of keyof' l.
Proof.
  induction l as [|x l IH]; simpl; [reflexivity|].
  rewrite key_h, IH. reflexivity.
Qed.

Lemma group_values_map (g : GroupKey) (l : list A) :
  group_values keyof col g (map h l) = group_values keyof' col' g l.
Proof.
  unfold group_values. rewrite filter_map_comm, map_map.
  f_equal. rewrite (map_ext _ _ col_h). f_equal.
  apply filter_ext. intros x. unfold in_group. now rewrite key_h.
Qed.

Lemma groupby_mean_map (l : list A) :
  groupby_mean keyof col (map h l) = groupby_mean keyof' col' l.
Proof.
  unfold groupby_mean, group_keys. rewrite keys_of_map.
  apply map_ext. intros g. now rewrite group_values_map.
Qed.

Lemma merge_inner_map (top : list GroupKey) (l : list A) :
  merge_inner keyof (map h l) top = map h (merge_inner keyof' l top).
Proof.
  unfold merge_inner. rewrite filter_map_comm. f_equal.
  apply filter_ext. intros x. now rewrite key_h.
Qed.
End GroupbyMap.

Section GroupValues.
Context {R : Type}.
Variable keyof : R -> option GroupKey.
Variable col : R -> num.

(** Dropping the rows without a value first does not change the values
    of a group. *)
Lemma group_values_dropna (g : GroupKey) (rows : list R) :
  group_values keyof col g (filter (fun r => notna (col r)) rows)
  = group_values keyof col g rows.
Proof.
  unfold group_values.
  induction rows as [|r rows IH]; simpl; [reflexivity|].
  destruct (col r) as [v|] eqn:E; simpl.
  - destruct (in_group keyof g r); simpl; rewrite ?E; now rewrite IH.
  - destruct (in_group keyof g r); simpl; rewrite ?E; exact IH.
Qed.

Lemma group_values_In (g : GroupKey) (rows : list R) (v : Qc) :
  In v (group_values keyof col g rows) <->
  exists r, In r rows /\ keyof r = Some g /\ col r = Some v.
Proof.
  unfold group_values.
  induction rows as [|r rows IH]; simpl.
  - split; [easy | now intros [r [[] _]]].
  - destruct (in_group keyof g r) eqn:E; simpl.
    + apply in_group_true in E.
      destruct (col r) as [x|] eqn:Ec; simpl; rewrite IH; split.
      * intros [<-|[r' [H1 H2]]]; [exists r; auto | exists r'; auto].
      * intros [r' [[<-|H1] [H2 H3]]];
          [left; congruence | right; exists r'; auto].
      * intros [r' [H1 H2]]. exists r'; auto.
      * intros [r' [[<-|H1] [H2 H3]]]; [congruence | exists r'; auto].
    + rewrite IH. split.
      * intros [r' [H1 H2]]. exists r'; auto.
      * intros [r' [[<-|H1] [H2 H3]]]; [|exists r'; auto].
        apply in_group_true in H2. congruence.
Qed.

(** The two merges: the rows of a selected group, each with the mean of
    its group. *)
Lemma merge_In (rows : list R) (top : list GroupKey)
  (means : list (GroupKey * num)) (r : R) (a : num) :
  In (r, a) (merge_left keyof (merge_inner keyof rows top) means) <->
  In r rows /\
  exists g, keyof r = Some g /\ In g top /\ a = lookup_mean means g.
Proof.
  unfold merge_left, merge_inner. rewrite in_map_iff. split.
  - intros [r' [Heq Hin]]. inversion Heq; subst r'. clear Heq.
    apply filter_In in Hin. destruct Hin as [Hin Hk].
    split; [assumption|].
    destruct (keyof r) as [g|]; [|discriminate].
    exists g. apply existsb_key_eqb in Hk. auto.
  - intros [Hin [g [Hk [Hg ->]]]]. exists r. rewrite Hk. split; [reflexivity|].
    apply filter_In. split; [assumption|]. rewrite Hk.
    now apply existsb_key_eqb.
Qed.
End GroupValues.

(** * Facts about [select_topk_pairs] *)

Section Columns.
Import DB.

Lemma get_col_map (f : string -> num) (ls : list string) (m : string) :
  In m ls -> get_col ls (map f ls) m = f m.
Proof.
  induction ls as [|l ls IH]; simpl; intros H; [easy|].
  destruct (String.eqb m l) eqn:E.
  - apply String.eqb_eq in E. now subst.
  - destruct H as [->|H]; [now rewrite String.eqb_refl in E | now apply IH].
Qed.

Lemma map_get_col_map (f : string -> num) (ls : list string) :
  map (get_col ls (map f ls)) ls = map f ls.
Proof. apply map_ext_in. intros m. apply get_col_map. Qed.

Lemma set_label_cons (l : string) (ls : list string) (m : string) :
  set_label (l :: ls) m
  = if String.eqb m l then l :: ls else l :: set_label ls m.
Proof.
  unfold set_label. simpl. destruct (String.eqb m l); simpl; [reflexivity|].
  now destruct (existsb (String.eqb m) ls).
Qed.

Lemma get_set_same (labels : list string) (cells : list num) (m : string)
  (v : num) :
  List.length cells = List.length labels ->
  get_col (set_label labels m) (set_cell labels cells m v) m = v.
Proof.
  revert cells. induction labels as [|l ls IH]; intros [|c cs] Hlen;
    try discriminate.
  - simpl. now rewrite String.eqb_refl.
  - rewrite set_label_cons. simpl.
    destruct (String.eqb m l) eqn:E; simpl; rewrite E; [reflexivity|].
    apply IH. simpl in Hlen. lia.
Qed.

Lemma get_set_other (labels : list string) (cells : list num)
  (m m' : string) (v : num) :
  m' <> m -> List.length cells = List.length labels ->
  get_col (set_label labels m) (set_cell labels cells m v) m'
  = get_col labels cells m'.
Proof.
  intros Hne. revert cells.
  induction labels as [|l ls IH]; intros [|c cs] Hlen; try discriminate.
  - simpl. destruct (String.eqb m' m) eqn:E; [|reflexivity].
    apply String.eqb_eq in E. contradiction.
  - rewrite set_label_cons. simpl.
    destruct (String.eqb m l) eqn:E; simpl.
    + apply String.eqb_eq in E. subst l.
      destruct (String.eqb m' m) eqn:E'; [|reflexivity].
      apply String.eqb_eq in E'. contradiction.
    + destruct (String.eqb m' l); [reflexivity|].
      apply IH. simpl in Hlen. lia.
Qed.
End Columns.

Section DBFacts.
Import DB.
Variable base : Frame.
Variable mineral : string.

Let mm : list string := matched_mineral_cols base mineral.

Lemma determinands_length (r : Row) :
  List.length (determinands base mineral r) = List.length mm.
Proof. unfold determinands. apply length_map. Qed.

Lemma determinands_get (r : Row) (m : string) :
  In m mm ->
  get_col mm (determinands base mineral r) m
  = get_col (columns base) (vals r) m.
Proof. intros H. unfold determinands. now apply get_col_map. Qed.

(** [Filtered_Base] row by row. *)
Lemma Filtered_Base_rows :
  rows (Filtered_Base base mineral)
  = map (filtered_row base mineral)
        (filter (fun r => match mm with
                          | [] => true
                          | _ :: _ => has_reading base mineral r
                          end)
                (rows base)).
Proof.
  unfold Filtered_Base, filtered_row. fold mm.
  assert (Hdrop :
    rows (match mm with
          | [] => loc_copy base mm
          | _ :: _ => dropna_all (loc_copy base mm) mm
          end)
    = map (fun r => mkRow (basic r) (determinands base mineral r))
          (filter (fun r => match mm with
                            | [] => true
                            | _ :: _ => has_reading base mineral r
                            end) (rows base))).
  { unfold determinands. fold mm. destruct mm as [|m0 ms] eqn:Emm.
    - simpl. f_equal. clear. induction (rows base) as [|r l IH]; simpl;
        [reflexivity | now rewrite <- IH].
    - rewrite <- Emm. unfold dropna_all, loc_copy. cbn [rows columns].
      rewrite filter_map_comm. f_equal. apply filter_ext. intros r.
      cbn [vals]. unfold has_reading, determinands. fold mm.
      rewrite (existsb_map notna
                 (get_col mm (map (get_col (columns base) (vals r)) mm))).
      now rewrite map_get_col_map. }
  destruct (1 <? List.length mm)%nat.
  - unfold setitem. cbn [rows]. rewrite Hdrop, map_map.
    apply map_ext_in. intros r _. cbn [basic vals].
    assert (Hc : columns (match mm with
                          | [] => loc_copy base mm
                          | _ :: _ => dropna_all (loc_copy base mm) mm
                          end) = mm) by now destruct mm.
    rewrite Hc. unfold determinands. fold mm.
    now rewrite map_get_col_map.
  - exact Hdrop.
Qed.

Lemma Filtered_Base_columns :
  columns (Filtered_Base base mineral)
  = if (1 <? List.length mm)%nat then set_label mm "Total" else mm.
Proof.
  unfold Filtered_Base. fold mm.
  destruct (1 <? List.length mm)%nat; now destruct mm.
Qed.

Lemma filtered_row_basic (r : Row) :
  basic (filtered_row base mineral r) = basic r.
Proof.
  unfold filtered_row. now destruct (1 <? _)%nat.
Qed.

Lemma metrics_In (m : string) :
  In m (metrics base mineral) <->
  In m mm \/ (m = "Total" /\ (1 < List.length mm)%nat).
Proof.
  unfold metrics. fold mm. destruct (1 <? List.length mm)%nat eqn:E.
  - apply Nat.ltb_lt in E. rewrite in_app_iff. simpl. intuition.
  - apply Nat.ltb_ge in E. split; [auto | intros [H|[_ H]]; [auto | lia]].
Qed.

(** The cell of metric [m] on a row of [Filtered_Base] is the value of
    the metric on the base row. *)
Lemma filtered_row_value (m : string) (r : Row) :
  In m (metrics base mineral) ->
  value base mineral m (filtered_row base mineral r)
  = metric_value base mineral m r.
Proof.
  intros Hm. apply metrics_In in Hm.
  unfold value, metric_value, filtered_row.
  rewrite Filtered_Base_columns. fold mm.
  destruct (1 <? List.length mm)%nat eqn:E; cbn [vals].
  - destruct (String.eqb m "Total") eqn:Et; cbn [andb].
    + apply String.eqb_eq in Et. subst m.
      apply get_set_same, determinands_length.
    + assert (Hne : m <> "Total")
        by (intros ->; now rewrite String.eqb_refl in Et).
      rewrite get_set_other; [|assumption|apply determinands_length].
      destruct Hm as [Hm|[Hm _]]; [|contradiction].
      now apply determinands_get.
  - rewrite andb_false_r.
    destruct Hm as [Hm|[_ Hm]];
      [now apply determinands_get | apply Nat.ltb_ge in E; lia].
Qed.

(** A row bearing a value for a metric has a reading. *)
Lemma metric_value_reading (m : string) (r : Row) :
  In m (metrics base mineral) ->
  notna (metric_value base mineral m r) = true ->
  has_reading base mineral r = true /\ mm <> [].
Proof.
  intros Hm Hv. apply metrics_In in Hm. unfold metric_value in Hv.
  fold mm in Hv.
  destruct (String.eqb m "Total" && (1 <? List.length mm)%nat) eqn:E.
  - apply andb_true_iff in E. destruct E as [_ E]. apply Nat.ltb_lt in E.
    split; [|intros H; rewrite H in E; simpl in E; lia].
    unfold has_reading. unfold row_sum in Hv.
    destruct (skipna (determinands base mineral r)) as [|v vs] eqn:Es;
      [discriminate|].
    clear Hv. induction (determinands base mineral r) as [|[c|] cs IH];
      simpl in *; [discriminate | reflexivity | now apply IH].
  - assert (Hin : In m mm).
    { destruct Hm as [Hm|[Hm1 Hm2]]; [assumption|].
      subst m. apply Nat.ltb_lt in Hm2. rewrite Hm2 in E.
      now rewrite String.eqb_refl in E. }
    split; [|intros H; now rewrite H in Hin].
    unfold has_reading, determinands. fold mm.
    apply existsb_exists.
    exists (get_col (columns base) (vals r) m). split; [|assumption].
    apply in_map_iff. now exists m.
Qed.

Section MetricFacts.
Variable m : string.
Hypothesis m_metric : In m (metrics base mineral).

Let mv : Row -> num := metric_value base mineral m.

Lemma fb_rows :
  fb base mineral m
  = map (filtered_row base mineral)
        (filter (fun r => notna (mv r)) (rows base)).
Proof.
  unfold fb. rewrite Filtered_Base_rows, filter_map_comm. f_equal.
  rewrite (filter_ext _ (fun r => notna (mv r)))
    by (intros r; unfold mv; now rewrite filtered_row_value).
  apply filter_filter_sub. intros r _ Hv.
  destruct (metric_value_reading m r m_metric Hv) as [Hr Hmm].
  fold mm in Hmm |- *. now destruct mm.
Qed.

(** The means are those of the metric's non-null values over the rows
    of the base table. *)
Lemma means_df_base :
  means_df base mineral m
  = groupby_mean row_key mv (filter (fun r => notna (mv r)) (rows base)).
Proof.
  unfold means_df. rewrite fb_rows.
  apply groupby_mean_map.
  - intros r. unfold row_key. now rewrite filtered_row_basic.
  - intros r. now apply filtered_row_value.
Qed.

Lemma means_df_keys (g : GroupKey) :
  In g (map fst (means_df base mineral m)) <->
  exists r, In r (rows base) /\ row_key r = Some g /\ mv r <> None.
Proof.
  rewrite means_df_base, groupby_mean_keys, group_keys_In. split.
  - intros [r [Hin Hk]]. apply filter_In in Hin. destruct Hin as [Hin Hv].
    exists r. repeat split; try assumption.
    intros H. now rewrite H in Hv.
  - intros [r [Hin [Hk Hv]]]. exists r. split; [|assumption].
    apply filter_In. split; [assumption|]. now destruct (mv r).
Qed.

Lemma means_df_lookup (g : GroupKey) :
  In g (map fst (means_df base mineral m)) ->
  lookup_mean (means_df base mineral m) g
  = mean (group_values row_key mv g (rows base)).
Proof.
  intros H. rewrite means_df_base in *.
  rewrite groupby_mean_keys in H.
  now rewrite lookup_groupby_mean, group_values_dropna.
Qed.

Lemma means_df_values (g : GroupKey) :
  In g (map fst (means_df base mineral m)) <->
  group_values row_key mv g (rows base) <> [].
Proof.
  rewrite means_df_keys. split.
  - intros [r [Hin [Hk Hv]]] Hnil.
    destruct (mv r) as [v|] eqn:E; [|congruence].
    assert (Hv' : In v (group_values row_key mv g (rows base)))
      by (apply group_values_In; exists r; auto).
    now rewrite Hnil in Hv'.
  - intros H.
    destruct (group_values row_key mv g (rows base)) as [|v vs] eqn:E;
      [congruence|].
    assert (Hv : In v (group_values row_key mv g (rows base)))
      by (rewrite E; now left).
    apply group_values_In in Hv. destruct Hv as [r [Hin [Hk Hv]]].
    exists r. repeat split; try assumption. congruence.
Qed.

(** The rows of the result for the metric. *)
Lemma tmp_rows (k : Z) (x : Rec) :
  In x (df_rows (tmp base mineral k m)) <->
  exists r g,
    In r (rows base) /\ has_reading base mineral r = true /\
    row_key r = Some g /\ In g (top_keys base mineral k m) /\
    x = mkRec (basic r) (mv r) (lookup_mean (means_df base mineral m) g).
Proof.
  unfold tmp. cbn [df_rows]. rewrite Filtered_Base_rows.
  rewrite merge_inner_map with (keyof' := row_key)
    by (intros r; unfold row_key; now rewrite filtered_row_basic).
  rewrite in_map_iff. split.
  - intros [[r' a] [Hx Hin]]. cbn [fst snd] in Hx.
    unfold merge_left in Hin. apply in_map_iff in Hin.
    destruct Hin as [r0 [Heq Hin]]. inversion Heq; subst r' a. clear Heq.
    apply in_map_iff in Hin. destruct Hin as [r [<- Hin]].
    unfold merge_inner in Hin. apply filter_In in Hin.
    destruct Hin as [Hin Hk]. apply filter_In in Hin.
    destruct Hin as [Hin Hkeep].
    assert (Hg : row_key (filtered_row base mineral r) = row_key r)
      by (unfold row_key; now rewrite filtered_row_basic).
    rewrite Hg in Hx. destruct (row_key r) as [g|] eqn:Ek; [|discriminate].
    exists r, g. apply existsb_key_eqb in Hk.
    repeat split; try assumption.
    + fold mm in Hkeep. destruct mm eqn:Emm; [|assumption].
      apply metrics_In in m_metric. fold mm in m_metric.
      rewrite Emm in m_metric. simpl in m_metric.
      destruct m_metric as [[]|[_ H]]; lia.
    + rewrite <- Hx, filtered_row_basic. f_equal.
      now apply filtered_row_value.
  - intros [r [g [Hin [Hr [Hk [Hg ->]]]]]].
    exists (filtered_row base mineral r,
            lookup_mean (means_df base mineral m) g).
    cbn [fst snd]. split.
    + rewrite filtered_row_basic. f_equal. now apply filtered_row_value.
    + unfold merge_left. apply in_map_iff.
      exists (filtered_row base mineral r). split.
      * assert (Hg' : row_key (filtered_row base mineral r) = Some g)
          by (unfold row_key; now rewrite filtered_row_basic).
        now rewrite Hg'.
      * apply in_map. unfold merge_inner. apply filter_In. split.
        -- apply filter_In. split; [assumption|].
           fold mm. now destruct mm.
        -- rewrite Hk. now apply existsb_key_eqb.
Qed.
End MetricFacts.

(** The mapping [select_topk_pairs] returns, key by key. *)
Lemma select_topk_pairs_get (k : Z) (m : string) :
  dict_get (select_topk_pairs base mineral k) m
  = if existsb (String.eqb m) (metrics base mineral)
    then Some (tmp base mineral k m) else None.
Proof.
  unfold select_topk_pairs.
  now rewrite (dict_get_fold (fun m => tmp base mineral k m)).
Qed.

Lemma select_topk_pairs_Some (k : Z) (m : string) (d : DataFrame) :
  dict_get (select_topk_pairs base mineral k) m = Some d ->
  In m (metrics base mineral) /\ d = tmp base mineral k m.
Proof.
  rewrite select_topk_pairs_get.
  destruct (existsb (String.eqb m) (metrics base mineral)) eqn:E;
    [|discriminate].
  intros H. inversion H. split; [now apply existsb_eqb_In | reflexivity].
Qed.
End DBFacts.

(** * Selections and [get_top] *)

(** ** The selection is a top-k selection *)
Lemma nlargest_is_top_k (k : Z) (means : list (GroupKey * num)) :
  NoDup (map fst means) -> is_top_k k means (map fst (nlargest k means)).
Proof.
  intros Hnd. unfold is_top_k. repeat split.
  - intros g. now apply (top_incl k means Hnd).
  - now apply top_NoDup.
  - apply top_length.
  - intros g g' Hg Hg' Hout. apply mean_ge_not_higher.
    now apply (top_best k means Hnd).
  - now apply top_sorted.
Qed.

(** ** Facts about [get_top] *)
Section Top20Facts.
Import Top20DB.
Variable k : Z.
Variable df : DataFrame.

Lemma get_top_tmp_rows (x : Rec) :
  In x (df_rows (tmp k df)) <->
  exists r g,
    In r (df_rows df) /\ rec_key r = Some g /\ In g (top_keys k df) /\
    x = mkRec (keep r) (monthly_concentration r)
              (if has_column df AVG_COL
               then average_monthly_concentration r
               else lookup_mean (means_df df) g).
Proof.
  unfold tmp. cbn [df_rows]. rewrite in_map_iff. split.
  - intros [[r a] [Hx Hin]]. cbn [fst snd] in Hx.
    apply merge_In in Hin. destruct Hin as [Hin [g [Hk [Hg ->]]]].
    exists r, g. auto.
  - intros [r [g [Hin [Hk [Hg ->]]]]].
    exists (r, lookup_mean (means_df df) g). split; [reflexivity|].
    apply merge_In. split; [assumption|]. now exists g.
Qed.

Lemma get_top_means_lookup (g : GroupKey) :
  In g (map fst (means_df df)) ->
  lookup_mean (means_df df) g
  = mean (group_values rec_key monthly_concentration g (df_rows df)).
Proof.
  unfold means_df. rewrite groupby_mean_keys. apply lookup_groupby_mean.
Qed.

Lemma get_top_means_keys (g : GroupKey) :
  In g (map fst (means_df df)) <->
  exists r, In r (df_rows df) /\ rec_key r = Some g.
Proof. unfold means_df. now rewrite groupby_mean_keys, group_keys_In. Qed.
End Top20Facts.

Lemma get_top_frame_at (base : dict (dict DataFrame)) (k : Z)
  (mineral name : string) :
  Top20DB.frame_at (Top20DB.get_top base k) mineral name
  = option_map (Top20DB.tmp k) (Top20DB.frame_at base mineral name).
Proof.
  unfold Top20DB.frame_at, Top20DB.get_top.
  induction base as [|[key sub] base IH]; simpl; [reflexivity|].
  destruct (String.eqb mineral key); [|exact IH].
  apply (dict_get_map (Top20DB.tmp k)).
Qed.

(** Keys of the rows of a result. *)
Lemma distinct_keys_In (g : GroupKey) (l : list Rec) :
  In g (distinct_keys l) <-> exists x, In x l /\ rec_key x = Some g.
Proof. unfold distinct_keys. now rewrite nodup_In, keys_of_In. Qed.

Lemma distinct_keys_bound (l : list Rec) (top : list GroupKey) :
  (forall x g, In x l -> rec_key x = Some g -> In g top) ->
  (List.length (distinct_keys l) <= List.length top)%nat.
Proof.
  intros H. apply NoDup_incl_length.
  - apply NoDup_nodup.
  - intros g Hg. apply distinct_keys_In in Hg. destruct Hg as [x [Hx Hk]].
    now apply (H x).
Qed.

(** * The claims *)

(** ** The rows [select_topk_pairs] returns for a metric *)
Lemma DB_means_df_NoDup (base : DB.Frame) (mineral m : string) :
  NoDup (map fst (DB.means_df base mineral m)).
Proof. unfold DB.means_df. apply groupby_mean_NoDup. Qed.

Lemma Top20_means_df_NoDup (df : DataFrame) :
  NoDup (map fst (Top20DB.means_df df)).
Proof. unfold Top20DB.means_df. apply groupby_mean_NoDup. Qed.

Lemma DB_output_row (base : DB.Frame) (mineral : string) (k : Z)
  (m : string) (d : DataFrame) (x : Rec) :
  dict_get (DB.select_topk_pairs base mineral k) m = Some d ->
  In x (df_rows d) ->
  exists r g,
    In r (DB.rows base) /\ DB.has_reading base mineral r = true /\
    DB.row_key r = Some g /\ rec_key x = Some g /\
    In g (DB.top_keys base mineral k m) /\
    In g (map fst (DB.means_df base mineral m)) /\
    keep x = DB.basic r /\
    monthly_concentration x = DB.metric_value base mineral m r /\
    average_monthly_concentration x
    = mean (DB.group_readings base mineral m g) /\
    DB.group_readings base mineral m g <> [].
Proof.
  intros Hd Hx. apply select_topk_pairs_Some in Hd. destruct Hd as [Hm ->].
  apply (tmp_rows base mineral m Hm) in Hx.
  destruct Hx as [r [g [Hin [Hr [Hk [Hg ->]]]]]].
  assert (Hkeys : In g (map fst (DB.means_df base mineral m)))
    by (apply (top_incl k _ (DB_means_df_NoDup base mineral m)); exact Hg).
  exists r, g. cbn [keep monthly_concentration average_monthly_concentration].
  repeat split; try assumption.
  - now apply means_df_lookup.
  - now apply means_df_values.
Qed.




Lemma DB_means_df_notna (base : DB.Frame) (mineral m : string)
  (e : GroupKey * num) :
  In m (DB.metrics base mineral) ->
  In e (DB.means_df base mineral m) -> notna (snd e) = true.
Proof.
  intros Hm He. destruct e as [g v].
  assert (Hg : In g (map fst (DB.means_df base mineral m)))
    by (now apply (in_map fst) in He).
  rewrite <- (lookup_mean_In _ (DB_means_df_NoDup base mineral m) g v He).
  rewrite (means_df_lookup base mineral m Hm g Hg).
  apply (means_df_values base mineral m Hm) in Hg.
  cbn [snd]. now destruct (group_values _ _ g (DB.rows base)).
Qed.

Lemma filter_all {A : Type} (p : A -> bool) (l : list A) :
  (forall x, In x l -> p x = true) -> filter p l = l.
Proof.
  induction l as [|x l IH]; simpl; intros H; [reflexivity|].
  rewrite (H x (or_introl eq_refl)). f_equal. apply IH. auto.
Qed.






(** ** The row total *)
Lemma existsb_notna_false (cells : list num) :
  existsb notna cells = false <-> forall c, In c cells -> c = None.
Proof.
  induction cells as [|[v|] cells IH]; simpl.
  - split; [now intros _ c [] | reflexivity].
  - split; [discriminate|].
    intros H. now specialize (H (Some v) (or_introl eq_refl)).
  - rewrite IH. split.
    + intros H c [<-|Hc]; auto.
    + intros H c Hc. apply H. now right.
Qed.

Lemma row_sum_1 (cells : list num) :
  row_sum 1 cells
  = if existsb notna cells then Some (series_sum (skipna cells)) else None.
Proof.
  unfold row_sum. destruct (existsb notna cells) eqn:E.
  - destruct (skipna cells) as [|v vs] eqn:Es; [|reflexivity].
    pose proof (proj1 (skipna_nil cells) Es) as Hnull.
    apply existsb_notna_false in Hnull. congruence.
  - pose proof (proj1 (existsb_notna_false cells) E) as Hnull.
    apply skipna_nil in Hnull. now rewrite Hnull.
Qed.

Lemma metric_value_Total (base : DB.Frame) (mineral : string) (r : DB.Row) :
  (1 < List.length (DB.matched_mineral_cols base mineral))%nat ->
  DB.metric_value base mineral "Total" r
  = row_sum 1 (DB.determinands base mineral r).
Proof.
  intros H. unfold DB.metric_value. apply Nat.ltb_lt in H. now rewrite H.
Qed.

(** C4.  When more than one column matches, the "Total" of a row of the
    base table is the sum of its non-null determinand cells, and null (not
    zero) when they are all null; the "Total" column of the working frame
    holds that sum for exactly the rows with at least one non-null
    determinand, so a row without readings contributes no "Total". *)
Theorem C4_total_of_a_row :
  forall (base : DB.Frame) (mineral : string),
    (1 < List.length (DB.matched_mineral_cols base mineral))%nat ->
    (forall r,
        (forall c, In c (DB.determinands base mineral r) -> c = None) ->
        DB.metric_value base mineral "Total" r = None) /\
    (forall r,
        (exists c, In c (DB.determinands base mineral r) /\ c <> None) ->
        DB.metric_value base mineral "Total" r
        = Some (series_sum (skipna (DB.determinands base mineral r)))) /\
    map (fun r' => (DB.basic r', DB.value base mineral "Total" r'))
        (DB.rows (DB.Filtered_Base base mineral))
    = map (fun r => (DB.basic r,
                     Some (series_sum
                             (skipna (DB.determinands base mineral r)))))
          (filter (fun r => existsb notna (DB.determinands base mineral r))
                  (DB.rows base)).
Proof.
  intros base mineral Hmany. repeat split.
  - intros r Hnull. rewrite metric_value_Total, row_sum_1 by assumption.
    apply existsb_notna_false in Hnull. now rewrite Hnull.
  - intros r [c [Hc Hne]]. rewrite metric_value_Total, row_sum_1 by assumption.
    destruct (existsb notna (DB.determinands base mineral r)) eqn:E;
      [reflexivity|].
    pose proof (proj1 (existsb_notna_false _) E c Hc). contradiction.
  - assert (Hm : In "Total" (DB.metrics base mineral))
      by (apply metrics_In; right; auto).
    rewrite Filtered_Base_rows, map_map.
    destruct (DB.matched_mineral_cols base mineral) as [|c0 cs] eqn:Emm;
      [simpl in Hmany; lia|].
    rewrite <- Emm in Hmany.
    apply map_ext_in. intros r Hr. apply filter_In in Hr.
    destruct Hr as [_ Hr]. unfold DB.has_reading in Hr.
    rewrite filtered_row_basic, filtered_row_value by assumption.
    now rewrite metric_value_Total, row_sum_1, Hr by assumption.
Qed.

Lemma C4_witness :
  (1 < List.length (DB.matched_mineral_cols Sample.base_two "Magnesium"))%nat
  /\
  map (fun r' => (DB.basic r', DB.value Sample.base_two "Magnesium" "Total" r'))
      (DB.rows (DB.Filtered_Base Sample.base_two "Magnesium"))
  = map (fun r => (DB.basic r,
                   Some (series_sum
                           (skipna (DB.determinands Sample.base_two
                                                    "Magnesium" r)))))
        (filter (fun r => existsb notna
                            (DB.determinands Sample.base_two "Magnesium" r))
                (DB.rows Sample.base_two)).
Proof.
  assert (H : (1 < List.length
                     (DB.matched_mineral_cols Sample.base_two "Magnesium"))%nat)
    by (vm_compute; lia).
  split; [exact H|].
  exact (proj2 (proj2 (C4_total_of_a_row Sample.base_two "Magnesium" H))).
Defined.

(** C5 (as amended).  A row whose value for a metric is null is absent
    from the working set [fb] on which the group means and the top keys of
    the metric are computed.  The output of the metric holds every row of
    the base table that has a value in at least one matched column and
    whose group is selected, with its cell for this metric, null or not;
    each of these groups has at least one non-null value for the metric.
    [get_top] prunes nothing: its output holds every row of a selected
    group. *)
Theorem C5_null_rows :
  (forall (base : DB.Frame) (mineral m : string) (r : DB.Row),
      In r (DB.fb base mineral m) -> DB.value base mineral m r <> None)
  /\
  (forall (base : DB.Frame) (mineral : string) (k : Z) (m : string)
          (d : DataFrame),
      dict_get (DB.select_topk_pairs base mineral k) m = Some d ->
      forall x,
        In x (df_rows d) <->
        exists r g,
          In r (DB.rows base) /\ DB.has_reading base mineral r = true /\
          DB.row_key r = Some g /\ In g (DB.top_keys base mineral k m) /\
          DB.group_readings base mineral m g <> [] /\
          x = mkRec (DB.basic r) (DB.metric_value base mineral m r)
                    (lookup_mean (DB.means_df base mineral m) g))
  /\
  (forall (k : Z) (df : DataFrame) (r : Rec) (g : GroupKey),
      In r (df_rows df) -> rec_key r = Some g ->
      In g (Top20DB.top_keys k df) ->
      exists x,
        In x (df_rows (Top20DB.tmp k df)) /\ keep x = keep r /\
        monthly_concentration x = monthly_concentration r).
Proof.
  split; [|split].
  - intros base mineral m r Hr Hnull. unfold DB.fb in Hr.
    apply filter_In in Hr. destruct Hr as [_ Hr]. now rewrite Hnull in Hr.
  - intros base mineral k m d Hd x.
    apply select_topk_pairs_Some in Hd. destruct Hd as [Hm ->].
    rewrite (tmp_rows base mineral m Hm). split.
    + intros [r [g [Hin [Hr [Hk [Hg ->]]]]]].
      exists r, g. repeat split; try assumption.
      apply (means_df_values base mineral m Hm).
      now apply (top_incl k _ (DB_means_df_NoDup base mineral m)).
    + intros [r [g [Hin [Hr [Hk [Hg [_ ->]]]]]]]. exists r, g. auto.
  - intros k df r g Hin Hk Hg.
    exists (mkRec (keep r) (monthly_concentration r)
                  (if has_column df AVG_COL
                   then average_monthly_concentration r
                   else lookup_mean (Top20DB.means_df df) g)).
    split; [|split; reflexivity].
    apply get_top_tmp_rows. exists r, g. auto.
Qed.

Lemma C5_witness :
  In (DB.mkRow (Sample.at_site "B" "2025-01")
               [Sample.reading 1; Sample.reading 1; Sample.reading 2])
     (DB.fb Sample.base_two "Magnesium" "Magnesium (mg/l)") /\
  DB.value Sample.base_two "Magnesium" "Magnesium (mg/l)"
    (DB.mkRow (Sample.at_site "B" "2025-01")
              [Sample.reading 1; Sample.reading 1; Sample.reading 2])
  <> None.
Proof.
  assert (H : In (DB.mkRow (Sample.at_site "B" "2025-01")
                    [Sample.reading 1; Sample.reading 1; Sample.reading 2])
                 (DB.fb Sample.base_two "Magnesium" "Magnesium (mg/l)"))
    by (vm_compute; right; left; reflexivity).
  split; [exact H|].
  exact (proj1 C5_null_rows Sample.base_two "Magnesium" "Magnesium (mg/l)"
               _ H).
Defined.

(** C5, as stated, fails: with two matched columns, the output of the
    metric "Magnesium (mg/l)" holds the row of site A for 2025-02, whose
    value for that metric is null. *)
Lemma C5_counterexample :
  exists d x,
    dict_get (DB.select_topk_pairs Sample.base_two "Magnesium" 1)
             "Magnesium (mg/l)" = Some d /\
    In x (df_rows d) /\
    keep x = Sample.at_site "A" "2025-02" /\
    monthly_concentration x = None.
Proof.
  exists (DB.tmp Sample.base_two "Magnesium" 1 "Magnesium (mg/l)").
  eexists. split; [vm_compute; reflexivity|].
  split; [vm_compute; right; left; reflexivity|].
  split; reflexivity.
Qed.

(** ** Non-positive [k] and empty tables *)
Lemma nlargest_nonpositive (k : Z) (means : list (GroupKey * num)) :
  (k <= 0)%Z -> nlargest k means = [].
Proof. intros H. unfold nlargest. apply Z.leb_le in H. now rewrite H. Qed.

Lemma merge_inner_nil {R : Type} (keyof : R -> option GroupKey)
  (rows : list R) :
  merge_inner keyof rows [] = [].
Proof.
  unfold merge_inner. induction rows as [|r rows IH]; simpl; [reflexivity|].
  now destruct (keyof r).
Qed.

Lemma DB_tmp_nonpositive (base : DB.Frame) (mineral : string) (k : Z)
  (m : string) :
  (k <= 0)%Z -> DB.tmp base mineral k m = mkDataFrame result_cols [].
Proof.
  intros H. unfold DB.tmp, DB.top_keys.
  now rewrite nlargest_nonpositive, merge_inner_nil.
Qed.

Lemma Top20_tmp_nonpositive (k : Z) (df : DataFrame) :
  (k <= 0)%Z -> Top20DB.tmp k df = mkDataFrame result_cols [].
Proof.
  intros H. unfold Top20DB.tmp, Top20DB.top_keys.
  now rewrite nlargest_nonpositive, merge_inner_nil.
Qed.






(** C9 (as amended).  When the mineral's name matches exactly one value
    column and that column is not itself labelled "Total", the mapping
    [select_topk_pairs] returns has no "Total" key and [build_geo_fig]
    raises [KeyError] on it. *)
Theorem C9_single_column_has_no_Total :
  forall (base : DB.Frame) (mineral : string) (k : Z) (c : string),
    DB.matched_mineral_cols base mineral = [c] ->
    c <> "Total" ->
    dict_get (DB.select_topk_pairs base mineral k) "Total" = None /\
    DB.build_geo_fig (DB.select_topk_pairs base mineral k) mineral k
    = Raised (KeyError "Total").
Proof.
  intros base mineral k c Hmm Hc.
  assert (Hget : dict_get (DB.select_topk_pairs base mineral k) "Total"
                 = None).
  { rewrite select_topk_pairs_get. unfold DB.metrics. rewrite Hmm.
    change (existsb (String.eqb "Total")
              (if (1 <? List.length [c])%nat then [c] ++ ["Total"] else [c]))
      with (String.eqb "Total" c || false).
    rewrite orb_false_r.
    destruct (String.eqb "Total" c) eqn:E; [|reflexivity].
    apply String.eqb_eq in E. congruence. }
  split; [exact Hget|]. unfold DB.build_geo_fig. now rewrite Hget.
Qed.

Lemma C9_witness :
  DB.matched_mineral_cols Sample.base_two "Calcium" = ["Calcium (mg/l)"] /\
  "Calcium (mg/l)" <> "Total" /\
  DB.build_geo_fig (DB.select_topk_pairs Sample.base_two "Calcium" 5)
                   "Calcium" 5
  = Raised (KeyError "Total").
Proof.
  assert (H1 : DB.matched_mineral_cols Sample.base_two "Calcium"
               = ["Calcium (mg/l)"]) by reflexivity.
  assert (H2 : "Calcium (mg/l)" <> "Total") by discriminate.
  split; [exact H1|]. split; [exact H2|].
  exact (proj2 (C9_single_column_has_no_Total
                  Sample.base_two "Calcium" 5%Z _ H1 H2)).
Defined.

(** C9, as stated, fails when the single matched column is itself
    labelled "Total": the mapping has a "Total" key and [build_geo_fig]
    returns a figure. *)
Lemma C9_counterexample :
  DB.matched_mineral_cols Sample.base_total "Total" = ["Total"] /\
  dict_get (DB.select_topk_pairs Sample.base_total "Total" 5) "Total"
  <> None /\
  ~ raises (DB.build_geo_fig
              (DB.select_topk_pairs Sample.base_total "Total" 5) "Total" 5).
Proof.
  split; [reflexivity|]. split.
  - vm_compute. discriminate.
  - intros [e He]. vm_compute in He. discriminate He.
Qed.




(** ** The store under [build_dot_fig] *)
Lemma DB20_build_dot_fig_reads_only (month_agg : dict (dict DataFrame))
  (mineral : string) :
  snd (DB20.build_dot_fig month_agg mineral) = month_agg.
Proof.
  unfold DB20.build_dot_fig. now destruct (dict_get month_agg mineral).
Qed.

(** C6 (the code breaks it).  [build_dot_fig] of [Top20DB.py] renames the
    columns of the frames of the shared [BASE] in place: after it has
    served a request for "Magnesium", the "Total" frame of [BASE] has the
    columns "Time" and "Detected Concentration" in place of "YearMonth"
    and "monthly concentration", so the store is no longer the one the
    request found. *)
Theorem C6_build_dot_fig_renames_BASE :
  option_map (fun d => map fst (df_columns d))
             (Top20DB.frame_at Sample.BASE "Magnesium" "Total")
  = Some ["Sampling Point"; "lat"; "long"; "Type"; "YearMonth";
          "monthly concentration"; "average monthly concentration"] /\
  option_map (fun d => map fst (df_columns d))
             (Top20DB.frame_at
                (snd (Top20DB.build_dot_fig Sample.BASE "Magnesium"))
                "Magnesium" "Total")
  = Some ["Sampling Point"; "lat"; "long"; "Type"; "Time";
          "Detected Concentration"; "average monthly concentration"] /\
  (exists figures,
      fst (Top20DB.build_dot_fig Sample.BASE "Magnesium")
      = Returned figures) /\
  snd (Top20DB.build_dot_fig Sample.BASE "Magnesium") <> Sample.BASE.
Proof.
  assert (H1 : option_map (fun d => map fst (df_columns d))
                 (Top20DB.frame_at Sample.BASE "Magnesium" "Total")
               = Some ["Sampling Point"; "lat"; "long"; "Type"; "YearMonth";
                       "monthly concentration";
                       "average monthly concentration"])
    by (vm_compute; reflexivity).
  assert (H2 : option_map (fun d => map fst (df_columns d))
                 (Top20DB.frame_at
                    (snd (Top20DB.build_dot_fig Sample.BASE "Magnesium"))
                    "Magnesium" "Total")
               = Some ["Sampling Point"; "lat"; "long"; "Type"; "Time";
                       "Detected Concentration";
                       "average monthly concentration"])
    by (vm_compute; reflexivity).
  split; [exact H1|]. split; [exact H2|]. split.
  - eexists. vm_compute. reflexivity.
  - intros Heq. rewrite Heq, H1 in H2. discriminate H2.
Qed.

(** * Further properties of the programs *)

(** ** [select_topk_pairs] *)

Lemma firstn_In_mono {A : Type} (n n' : nat) (l : list A) (x : A) :
  (n <= n')%nat -> In x (firstn n l) -> In x (firstn n' l).
Proof.
  revert n n'. induction l as [|y l IH]; intros n n' Hle Hx.
  - now rewrite firstn_nil in *.
  - destruct n as [|n]; [now simpl in Hx|].
    destruct n' as [|n']; [lia|]. simpl in *.
    destruct Hx as [Hx|Hx]; [now left|]. right.
    apply (IH n n'); [lia | assumption].
Qed.

Lemma nlargest_mono (k k' : Z) (means : list (GroupKey * num))
  (e : GroupKey * num) :
  (k <= k')%Z -> In e (nlargest k means) -> In e (nlargest k' means).
Proof.
  intros Hle. rewrite !nlargest_firstn.
  apply firstn_In_mono. lia.
Qed.

Lemma gb_Some (b : Basic) (g : GroupKey) :
  gb b = Some g ->
  Sampling_Point b = Some (key_site g) /\ lat b = Some (key_lat g) /\
  long b = Some (key_long g) /\ Type_ b = Some (key_type g).
Proof.
  unfold gb.
  destruct (Sampling_Point b), (lat b), (long b), (Type_ b);
    try discriminate.
  intros H. inversion H. cbn. auto.
Qed.

(** X1.  The output of a metric is the base table read in order: its rows
    are, one for one and in the order of the base table, the rows that
    have a value in a matched column and whose group is selected, each
    with its basic columns and its cell for the metric.  No row is
    repeated, dropped or moved. *)
Theorem X1_output_keeps_base_order :
  forall (base : DB.Frame) (mineral : string) (k : Z) (m : string)
         (d : DataFrame),
    dict_get (DB.select_topk_pairs base mineral k) m = Some d ->
    map (fun x => (keep x, monthly_concentration x)) (df_rows d)
    = map (fun r => (DB.basic r, DB.metric_value base mineral m r))
          (filter (fun r =>
                     DB.has_reading base mineral r
                     && match DB.row_key r with
                        | Some g =>
                            existsb (key_eqb g)
                                    (DB.top_keys base mineral k m)
                        | None => false
                        end)
                  (DB.rows base)).
Proof.
  intros base mineral k m d Hd.
  apply select_topk_pairs_Some in Hd. destruct Hd as [Hm ->].
  unfold DB.tmp. cbn [df_rows]. rewrite Filtered_Base_rows.
  rewrite merge_inner_map with (keyof' := DB.row_key)
    by (intros r; unfold DB.row_key; now rewrite filtered_row_basic).
  unfold merge_left, merge_inner. rewrite !map_map. cbn [fst snd].
  assert (Hmm : DB.matched_mineral_cols base mineral <> []).
  { apply metrics_In in Hm. intros H. rewrite H in Hm. simpl in Hm.
    destruct Hm as [[]|[_ Hm]]. lia. }
  replace (filter (fun r : DB.Row =>
                     match DB.matched_mineral_cols base mineral with
                     | [] => true
                     | _ :: _ => DB.has_reading base mineral r
                     end) (DB.rows base))
    with (filter (DB.has_reading base mineral) (DB.rows base))
    by (now destruct (DB.matched_mineral_cols base mineral)).
  rewrite (map_ext _ (fun r => (DB.basic r, DB.metric_value base mineral m r)))
    by (intros r; now rewrite filtered_row_basic, filtered_row_value).
  f_equal. clear.
  induction (DB.rows base) as [|r l IH]; simpl; [reflexivity|].
  destruct (DB.has_reading base mineral r); simpl; [|exact IH].
  destruct (match DB.row_key r with
            | Some g => existsb (key_eqb g) (DB.top_keys base mineral k m)
            | None => false
            end); now rewrite IH.
Qed.

Lemma X1_witness :
  map (fun x => (keep x, monthly_concentration x))
      (df_rows (DB.tmp Sample.base_two "Magnesium" 1 "Total"))
  = [(Sample.at_site "A" "2025-01", Some (of_Z 5));
     (Sample.at_site "A" "2025-02", Some (of_Z 3))].
Proof.
  assert (H : dict_get
                (DB.select_topk_pairs Sample.base_two "Magnesium" 1) "Total"
              = Some (DB.tmp Sample.base_two "Magnesium" 1 "Total"))
    by (vm_compute; reflexivity).
  rewrite (X1_output_keeps_base_order _ _ _ _ _ H).
  vm_compute. repeat f_equal; apply Qc_is_canon; reflexivity.
Defined.

(** X2.  No row of an output lacks a key cell: every row kept by
    [select_topk_pairs] or by [get_top] has a site, a latitude, a
    longitude and a type. *)
Theorem X2_output_rows_are_located :
  (forall (base : DB.Frame) (mineral : string) (k : Z) (m : string)
          (d : DataFrame) (x : Rec),
      dict_get (DB.select_topk_pairs base mineral k) m = Some d ->
      In x (df_rows d) ->
      Sampling_Point (keep x) <> None /\ lat (keep x) <> None /\
      long (keep x) <> None /\ Type_ (keep x) <> None)
  /\
  (forall (k : Z) (df : DataFrame) (x : Rec),
      In x (df_rows (Top20DB.tmp k df)) ->
      Sampling_Point (keep x) <> None /\ lat (keep x) <> None /\
      long (keep x) <> None /\ Type_ (keep x) <> None).
Proof.
  split.
  - intros base mineral k m d x Hd Hx.
    destruct (DB_output_row base mineral k m d x Hd Hx)
      as [r [g [_ [_ [_ [Hk _]]]]]].
    apply gb_Some in Hk. destruct Hk as [H1 [H2 [H3 H4]]].
    rewrite H1, H2, H3, H4. repeat split; discriminate.
  - intros k df x Hx. apply get_top_tmp_rows in Hx.
    destruct Hx as [r [g [_ [Hk [_ ->]]]]]. cbn [keep].
    apply gb_Some in Hk. destruct Hk as [H1 [H2 [H3 H4]]].
    rewrite H1, H2, H3, H4. repeat split; discriminate.
Qed.

Lemma X2_witness :
  exists x,
    In x (df_rows (DB.tmp Sample.base_two "Magnesium" 1 "Total")) /\
    Sampling_Point (keep x) <> None /\ lat (keep x) <> None /\
    long (keep x) <> None /\ Type_ (keep x) <> None.
Proof.
  assert (H : dict_get
                (DB.select_topk_pairs Sample.base_two "Magnesium" 1) "Total"
              = Some (DB.tmp Sample.base_two "Magnesium" 1 "Total"))
    by (vm_compute; reflexivity).
  assert (Hne : exists x,
             In x (df_rows (DB.tmp Sample.base_two "Magnesium" 1 "Total")))
    by (vm_compute; eexists; left; reflexivity).
  destruct Hne as [x Hx]. exists x. split; [exact Hx|].
  exact (proj1 X2_output_rows_are_located
               Sample.base_two "Magnesium" 1%Z "Total" _ x H Hx).
Defined.

(** X3.  Raising [k] never removes a row: the output for [k] is contained
    in the output for any larger [k'], with the same attached means. *)
Theorem X3_output_grows_with_k :
  (forall (base : DB.Frame) (mineral : string) (k k' : Z) (m : string)
          (d d' : DataFrame),
      (k <= k')%Z ->
      dict_get (DB.select_topk_pairs base mineral k) m = Some d ->
      dict_get (DB.select_topk_pairs base mineral k') m = Some d' ->
      incl (df_rows d) (df_rows d'))
  /\
  (forall (k k' : Z) (df : DataFrame),
      (k <= k')%Z ->
      incl (df_rows (Top20DB.tmp k df)) (df_rows (Top20DB.tmp k' df))).
Proof.
  split.
  - intros base mineral k k' m d d' Hle Hd Hd' x Hx.
    apply select_topk_pairs_Some in Hd, Hd'.
    destruct Hd as [Hm ->]. destruct Hd' as [_ ->].
    apply (tmp_rows base mineral m Hm) in Hx.
    apply (tmp_rows base mineral m Hm).
    destruct Hx as [r [g [Hin [Hr [Hk [Hg ->]]]]]].
    exists r, g. repeat split; try assumption.
    unfold DB.top_keys in *. apply in_map_iff in Hg.
    destruct Hg as [e [He Hg]]. apply in_map_iff. exists e.
    split; [assumption|]. now apply (nlargest_mono k k').
  - intros k k' df Hle x Hx.
    apply get_top_tmp_rows in Hx. apply get_top_tmp_rows.
    destruct Hx as [r [g [Hin [Hk [Hg ->]]]]].
    exists r, g. repeat split; try assumption.
    unfold Top20DB.top_keys in *. apply in_map_iff in Hg.
    destruct Hg as [e [He Hg]]. apply in_map_iff. exists e.
    split; [assumption|]. now apply (nlargest_mono k k').
Qed.

Lemma X3_witness :
  incl (df_rows (DB.tmp Sample.base_two "Magnesium" 1 "Total"))
       (df_rows (DB.tmp Sample.base_two "Magnesium" 2 "Total")).
Proof.
  assert (Hle : (1 <= 2)%Z) by lia.
  assert (H1 : dict_get
                 (DB.select_topk_pairs Sample.base_two "Magnesium" 1) "Total"
               = Some (DB.tmp Sample.base_two "Magnesium" 1 "Total"))
    by (vm_compute; reflexivity).
  assert (H2 : dict_get
                 (DB.select_topk_pairs Sample.base_two "Magnesium" 2) "Total"
               = Some (DB.tmp Sample.base_two "Magnesium" 2 "Total"))
    by (vm_compute; reflexivity).
  exact (proj1 X3_output_grows_with_k Sample.base_two "Magnesium"
               1%Z 2%Z "Total" _ _ Hle H1 H2).
Defined.

(** X4.  Two outputs never hold a null value: the output of the
    synthetic "Total", and the output of the only matched column when a
    single column matches. *)
Theorem X4_outputs_without_null_values :
  forall (base : DB.Frame) (mineral : string) (k : Z) (m : string)
         (d : DataFrame) (x : Rec),
    (m = "Total" /\
     (1 < List.length (DB.matched_mineral_cols base mineral))%nat)
    \/ DB.matched_mineral_cols base mineral = [m] ->
    dict_get (DB.select_topk_pairs base mineral k) m = Some d ->
    In x (df_rows d) ->
    monthly_concentration x <> None.
Proof.
  intros base mineral k m d x Hcase Hd Hx.
  destruct (DB_output_row base mineral k m d x Hd Hx)
    as [r [g [_ [Hr [_ [_ [_ [_ [_ [Hv _]]]]]]]]]].
  rewrite Hv. destruct Hcase as [[-> Hmany]|Hone].
  - rewrite metric_value_Total, row_sum_1 by assumption.
    unfold DB.has_reading in Hr. now rewrite Hr.
  - unfold DB.has_reading, DB.determinands in Hr. unfold DB.metric_value.
    rewrite Hone in *. cbn [List.length Nat.ltb Nat.leb] in *.
    rewrite andb_false_r. cbn [map existsb] in Hr.
    rewrite orb_false_r in Hr.
    now destruct (DB.get_col (DB.columns base) (DB.vals r) m).
Qed.

Lemma X4_witness :
  exists x,
    In x (df_rows (DB.tmp Sample.base_two "Calcium" 2 "Calcium (mg/l)")) /\
    monthly_concentration x <> None.
Proof.
  assert (Hone : DB.matched_mineral_cols Sample.base_two "Calcium"
                 = ["Calcium (mg/l)"]) by reflexivity.
  assert (H : dict_get (DB.select_topk_pairs Sample.base_two "Calcium" 2)
                       "Calcium (mg/l)"
              = Some (DB.tmp Sample.base_two "Calcium" 2 "Calcium (mg/l)"))
    by (vm_compute; reflexivity).
  assert (Hne : exists x,
             In x (df_rows
                     (DB.tmp Sample.base_two "Calcium" 2 "Calcium (mg/l)")))
    by (vm_compute; eexists; left; reflexivity).
  destruct Hne as [x Hx]. exists x. split; [exact Hx|].
  exact (X4_outputs_without_null_values Sample.base_two "Calcium" 2%Z
           "Calcium (mg/l)" _ x (or_intror Hone) H Hx).
Defined.

(** X5.  The mapping [select_topk_pairs] returns has an entry for exactly
    the matched columns, and for "Total" when two or more columns match;
    when no column matches it is the empty mapping. *)
Theorem X5_result_keys :
  forall (base : DB.Frame) (mineral : string) (k : Z),
    (forall m,
        dict_get (DB.select_topk_pairs base mineral k) m <> None <->
        In m (DB.matched_mineral_cols base mineral) \/
        (m = "Total" /\
         (1 < List.length (DB.matched_mineral_cols base mineral))%nat))
    /\
    (DB.matched_mineral_cols base mineral = [] ->
     DB.select_topk_pairs base mineral k = []).
Proof.
  intros base mineral k. split.
  - intros m. rewrite select_topk_pairs_get, <- metrics_In.
    destruct (existsb (String.eqb m) (DB.metrics base mineral)) eqn:E.
    + apply existsb_eqb_In in E. split; [auto | discriminate].
    + split; [congruence|]. intros H. apply existsb_eqb_In in H. congruence.
  - intros H. unfold DB.select_topk_pairs, DB.metrics. now rewrite H.
Qed.

Lemma X5_witness :
  DB.matched_mineral_cols Sample.base_two "Zinc" = [] /\
  DB.select_topk_pairs Sample.base_two "Zinc" 5 = [].
Proof.
  assert (H : DB.matched_mineral_cols Sample.base_two "Zinc" = [])
    by reflexivity.
  split; [exact H|].
  exact (proj2 (X5_result_keys Sample.base_two "Zinc" 5%Z) H).
Defined.

(** X6.  [build_geo_fig] on the result of [select_topk_pairs] raises
    [KeyError] exactly when there is no "Total" metric; otherwise it
    reaches [px.scatter_geo] with the "Total" output as the data to
    draw.  In particular it gets there whenever two or more columns
    match and raises when none does. *)
Theorem X6_geo_figure_needs_Total :
  forall (base : DB.Frame) (mineral : string) (k : Z),
    (In "Total" (DB.metrics base mineral) ->
     exists fig,
       DB.build_geo_fig (DB.select_topk_pairs base mineral k) mineral k
       = Returned fig /\
       DB.geo_data fig = DB.tmp base mineral k "Total") /\
    (~ In "Total" (DB.metrics base mineral) ->
     DB.build_geo_fig (DB.select_topk_pairs base mineral k) mineral k
     = Raised (KeyError "Total")) /\
    ((1 < List.length (DB.matched_mineral_cols base mineral))%nat ->
     In "Total" (DB.metrics base mineral)) /\
    (DB.matched_mineral_cols base mineral = [] ->
     ~ In "Total" (DB.metrics base mineral)).
Proof.
  intros base mineral k. unfold DB.build_geo_fig.
  rewrite select_topk_pairs_get. repeat split.
  - intros H. apply existsb_eqb_In in H. rewrite H.
    eexists. split; reflexivity.
  - intros H.
    destruct (existsb (String.eqb "Total") (DB.metrics base mineral)) eqn:E;
      [|reflexivity].
    apply existsb_eqb_In in E. contradiction.
  - intros H. apply metrics_In. right. auto.
  - intros H Hin. unfold DB.metrics in Hin. now rewrite H in Hin.
Qed.

Lemma X6_witness :
  In "Total" (DB.metrics Sample.base_two "Magnesium") /\
  exists fig,
    DB.build_geo_fig (DB.select_topk_pairs Sample.base_two "Magnesium" 5)
                     "Magnesium" 5 = Returned fig /\
    DB.geo_data fig = DB.tmp Sample.base_two "Magnesium" 5 "Total".
Proof.
  assert (H : In "Total" (DB.metrics Sample.base_two "Magnesium"))
    by (vm_compute; right; right; left; reflexivity).
  split; [exact H|].
  exact (proj1 (X6_geo_figure_needs_Total Sample.base_two "Magnesium" 5%Z)
               H).
Defined.

(** ** Orders *)

Section LexOrder.
Context {A B : Type}.
Variable cmpA : A -> A -> comparison.
Variable cmpB : B -> B -> comparison.
Hypothesis order_A : is_order cmpA.
Hypothesis order_B : is_order cmpB.

Lemma lex_is_order :
  is_order (fun p q : A * B =>
              lex (cmpA (fst p) (fst q)) (cmpB (snd p) (snd q))).
Proof.
  destruct order_A as [EA [SA TA]]. destruct order_B as [EB [SB TB]].
  repeat split.
  - destruct x as [a b], y as [a' b']. cbn [fst snd]. unfold lex.
    destruct (cmpA a a') eqn:E; try discriminate.
    intros H. apply EA in E. apply EB in H. congruence.
  - intros <-. destruct x as [a b]. cbn [fst snd].
    rewrite (proj2 (EA a a) eq_refl). cbn. now apply EB.
  - intros [a b] [a' b']. cbn [fst snd]. rewrite (SA a a'), (SB b b').
    now destruct (cmpA a a').
  - intros [a b] [a' b'] [a'' b'']. cbn [fst snd]. unfold lex.
    destruct (cmpA a a') eqn:E1; try discriminate;
      destruct (cmpA a' a'') eqn:E2; try discriminate; intros H1 H2.
    + apply EA in E1, E2. subst.
      rewrite (proj2 (EA a'' a'') eq_refl). now apply TB with b'.
    + apply EA in E1. subst. now rewrite E2.
    + apply EA in E2. subst. now rewrite E1.
    + now rewrite (TA _ _ _ E1 E2).
Qed.
End LexOrder.

Lemma is_order_pullback {A B : Type} (cmp : B -> B -> comparison)
  (f : A -> B) :
  (forall x y, f x = f y -> x = y) -> is_order cmp ->
  is_order (fun x y => cmp (f x) (f y)).
Proof.
  intros Hinj [E [S T]]. repeat split.
  - intros H. apply Hinj. now apply E.
  - intros <-. now apply E.
  - intros x y. apply S.
  - intros x y z. apply T.
Qed.

Lemma ascii_compare_is_order : is_order Ascii.compare.
Proof.
  unfold Ascii.compare. repeat split.
  - apply Ascii.compare_eq_iff.
  - intros <-. apply N.compare_refl.
  - intros x y. apply N.compare_antisym.
  - intros x y z. rewrite !N.compare_lt_iff. apply N.lt_trans.
Qed.

Lemma string_compare_is_order : is_order String.compare.
Proof.
  destruct ascii_compare_is_order as [EA [SA TA]]. repeat split.
  - apply String.compare_eq_iff.
  - intros <-. induction x as [|c s IH]; simpl; [reflexivity|].
    now rewrite (proj2 (EA c c) eq_refl).
  - intros x y. apply String.compare_antisym.
  - intros x. induction x as [|a s IH]; intros [|b t] [|c u]; simpl;
      try discriminate; try reflexivity.
    destruct (Ascii.compare a b) eqn:E1; try discriminate;
      destruct (Ascii.compare b c) eqn:E2; try discriminate; intros H1 H2.
    + apply EA in E1, E2. subst.
      rewrite (proj2 (EA c c) eq_refl). now apply IH with t.
    + apply EA in E1. subst. now rewrite E2.
    + apply EA in E2. subst. now rewrite E1.
    + now rewrite (TA _ _ _ E1 E2).
Qed.

Lemma Qc_compare_is_order : is_order Qccompare.
Proof.
  repeat split.
  - now apply Qceq_alt.
  - now apply Qceq_alt.
  - intros x y. unfold Qccompare. symmetry. apply Qcompare_antisym.
  - intros x y z H1 H2. apply Qclt_alt in H1, H2. apply Qclt_alt.
    now apply Qclt_trans with y.
Qed.

Lemma key_compare_is_order : is_order key_compare.
Proof.
  apply (is_order_pullback
           (fun p q : string * (Qc * (Qc * string)) =>
              lex (String.compare (fst p) (fst q))
                  (lex (Qccompare (fst (snd p)) (fst (snd q)))
                       (lex (Qccompare (fst (snd (snd p)))
                                       (fst (snd (snd q))))
                            (String.compare (snd (snd (snd p)))
                                            (snd (snd (snd q)))))))
           (fun g => (key_site g, (key_lat g, (key_long g, key_type g))))).
  - intros [s1 a1 o1 t1] [s2 a2 o2 t2] H. cbn in H. now inversion H.
  - apply (lex_is_order String.compare
             (fun p q : Qc * (Qc * string) =>
                lex (Qccompare (fst p) (fst q))
                    (lex (Qccompare (fst (snd p)) (fst (snd q)))
                         (String.compare (snd (snd p)) (snd (snd q)))))
             string_compare_is_order).
    apply (lex_is_order Qccompare
             (fun p q : Qc * string =>
                lex (Qccompare (fst p) (fst q))
                    (String.compare (snd p) (snd q)))
             Qc_compare_is_order).
    apply (lex_is_order Qccompare String.compare
             Qc_compare_is_order string_compare_is_order).
Qed.

Lemma key_leb_trans (a b c : GroupKey) :
  key_leb a b = true -> key_leb b c = true -> key_leb a c = true.
Proof.
  destruct key_compare_is_order as [E [S T]]. unfold key_leb.
  destruct (key_compare a b) eqn:E1; try discriminate;
    destruct (key_compare b c) eqn:E2; try discriminate; intros _ _.
  - apply E in E1, E2. subst. now rewrite (proj2 (E c c) eq_refl).
  - apply E in E1. subst. now rewrite E2.
  - apply E in E2. subst. now rewrite E1.
  - now rewrite (T _ _ _ E1 E2).
Qed.

Lemma key_leb_total (a b : GroupKey) :
  key_leb a b = false -> key_leb b a = true.
Proof.
  destruct key_compare_is_order as [_ [S _]]. unfold key_leb.
  rewrite (S a b). now destruct (key_compare a b).
Qed.

Lemma mean_ge_geb (a b : GroupKey * num) :
  mean_ge (snd a) (snd b) -> mean_geb a b = true.
Proof.
  unfold mean_geb, mean_ge.
  destruct (snd a) as [x|], (snd b) as [y|]; try easy.
  intros H. destruct (x ?= y)%Qc eqn:E; try reflexivity.
  apply Qclt_alt in E. now apply Qcle_not_lt in H.
Qed.

Lemma mean_geb_trans (a b c : GroupKey * num) :
  mean_geb a b = true -> mean_geb b c = true -> mean_geb a c = true.
Proof.
  intros H1 H2. apply mean_ge_geb.
  apply mean_ge_trans with (snd b); now apply mean_geb_ord.
Qed.

Lemma mean_geb_total_b (a b : GroupKey * num) :
  mean_geb a b = false -> mean_geb b a = true.
Proof. intros H. now apply mean_ge_geb, mean_geb_total. Qed.

(** ** Sorting and filtering commute *)
Section SortFilter.
Context {A : Type} (leb : A -> A -> bool) (p : A -> bool).
Hypothesis leb_total : forall a b : A, leb a b = false -> leb b a = true.
Hypothesis leb_trans :
  forall a b c : A, leb a b = true -> leb b c = true -> leb a c = true.

Let le (x y : A) : Prop := leb x y = true.

Lemma insert_sorted_first (x : A) (l : list A) :
  (forall z, In z l -> leb x z = true) -> insert_sorted leb x l = x :: l.
Proof.
  destruct l as [|y l]; simpl; intros H; [reflexivity|].
  now rewrite (H y (or_introl eq_refl)).
Qed.

Lemma filter_insert_sorted (x : A) (l : list A) :
  StronglySorted le l ->
  filter p (insert_sorted leb x l)
  = if p x then insert_sorted leb x (filter p l) else filter p l.
Proof.
  induction 1 as [|y l Hs IH Hall]; simpl.
  - now destruct (p x).
  - destruct (leb x y) eqn:E.
    + simpl. destruct (p x); [|reflexivity].
      symmetry. apply insert_sorted_first. intros z Hz.
      assert (Hz' : In z (y :: l))
        by (destruct (p y); [|right];
            [destruct Hz as [<-|Hz]; [now left | right] |];
            now apply filter_In in Hz).
      destruct Hz' as [<-|Hz']; [assumption|].
      rewrite Forall_forall in Hall. now apply leb_trans with y, Hall.
    + simpl. rewrite IH. destruct (p y), (p x); simpl; now rewrite ?E.
Qed.

Lemma filter_stable_sort (l : list A) :
  filter p (stable_sort leb l) = stable_sort leb (filter p l).
Proof.
  induction l as [|x l IH]; simpl; [reflexivity|].
  rewrite filter_insert_sorted.
  - destruct (p x); simpl; now rewrite IH.
  - apply stable_sort_sorted; [easy | | exact leb_trans].
    intros a b. apply leb_total.
Qed.
End SortFilter.

(** ** A selection of a selection *)

Lemma nodup_filter {A : Type} (dec : forall x y : A, {x = y} + {x <> y})
  (p : A -> bool) (l : list A) :
  nodup dec (filter p l) = filter p (nodup dec l).
Proof.
  induction l as [|x l IH]; simpl; [reflexivity|].
  destruct (p x) eqn:E; simpl.
  - destruct (in_dec dec x (filter p l)) as [Hin|Hout];
      destruct (in_dec dec x l) as [Hin'|Hout']; simpl; rewrite ?E.
    + exact IH.
    + apply filter_In in Hin. tauto.
    + exfalso. apply Hout. apply filter_In. auto.
    + now rewrite IH.
  - destruct (in_dec dec x l); simpl; rewrite ?E; exact IH.
Qed.

Section SelectionFacts.
Context {R : Type}.
Variable keyof : R -> option GroupKey.
Variable col : R -> num.
Variable top : list GroupKey.

Let chosen (g : GroupKey) : bool := existsb (key_eqb g) top.

Lemma keys_of_merge_inner (rows : list R) :
  keys_of keyof (merge_inner keyof rows top)
  = filter chosen (keys_of keyof rows).
Proof.
  unfold merge_inner.
  induction rows as [|r rows IH]; simpl; [reflexivity|].
  destruct (keyof r) as [g|] eqn:E; simpl; [|exact IH].
  fold (chosen g). destruct (chosen g); simpl; rewrite ?E; now rewrite IH.
Qed.

Lemma group_keys_merge_inner (rows : list R) :
  group_keys keyof (merge_inner keyof rows top)
  = filter chosen (group_keys keyof rows).
Proof.
  unfold group_keys.
  rewrite keys_of_merge_inner, nodup_filter. symmetry.
  apply filter_stable_sort.
  - exact key_leb_total.
  - exact key_leb_trans.
Qed.

Lemma group_values_merge_inner (g : GroupKey) (rows : list R) :
  chosen g = true ->
  group_values keyof col g (merge_inner keyof rows top)
  = group_values keyof col g rows.
Proof.
  intros Hg. unfold group_values, merge_inner. do 2 f_equal.
  apply filter_filter_sub. intros r _ Hr.
  apply in_group_true in Hr. now rewrite Hr.
Qed.

Lemma groupby_mean_merge_inner (rows : list R) :
  groupby_mean keyof col (merge_inner keyof rows top)
  = filter (fun e => chosen (fst e)) (groupby_mean keyof col rows).
Proof.
  unfold groupby_mean. rewrite group_keys_merge_inner, filter_map_comm.
  cbn [fst]. apply map_ext_in. intros g Hg. apply filter_In in Hg.
  destruct Hg as [_ Hg]. now rewrite group_values_merge_inner.
Qed.

Lemma merge_inner_twice (rows : list R) (top' : list GroupKey) :
  incl top' top ->
  merge_inner keyof (merge_inner keyof rows top) top'
  = merge_inner keyof rows top'.
Proof.
  intros Hincl. unfold merge_inner. apply filter_filter_sub.
  intros r _ Hr. destruct (keyof r) as [g|]; [|discriminate].
  apply existsb_key_eqb. apply existsb_key_eqb in Hr. now apply Hincl.
Qed.
End SelectionFacts.

Lemma filter_filter_comm {A : Type} (p q : A -> bool) (l : list A) :
  filter p (filter q l) = filter q (filter p l).
Proof.
  induction l as [|x l IH]; simpl; [reflexivity|].
  destruct (p x) eqn:Ep, (q x) eqn:Eq; simpl; rewrite ?Ep, ?Eq;
    now rewrite IH.
Qed.

Lemma ranking_filter (p : GroupKey * num -> bool)
  (means : list (GroupKey * num)) :
  ranking (filter p means) = filter p (ranking means).
Proof.
  unfold ranking. rewrite filter_app. f_equal.
  - rewrite (filter_filter_comm _ p).
    symmetry. apply filter_stable_sort.
    + exact mean_geb_total_b.
    + exact mean_geb_trans.
  - apply filter_filter_comm.
Qed.

Lemma filter_firstn_keys (n : nat) (l : list (GroupKey * num)) :
  NoDup (map fst l) ->
  filter (fun e => existsb (key_eqb (fst e)) (map fst (firstn n l))) l
  = firstn n l.
Proof.
  revert n. induction l as [|e l IH]; intros n Hnd.
  - now rewrite firstn_nil.
  - inversion Hnd as [|? ? Hout Hnd']; subst.
    destruct n as [|n].
    + cbn [firstn map existsb]. clear. simpl.
      induction l as [|x l IH]; simpl; [reflexivity | exact IH].
    + cbn [firstn map filter existsb]. rewrite key_eqb_refl. cbn [orb].
      f_equal.
      transitivity
        (filter (fun x => existsb (key_eqb (fst x)) (map fst (firstn n l)))
                l); [|now apply IH].
      apply filter_ext_in. intros x Hx.
      destruct (key_eqb (fst x) (fst e)) eqn:E; [|reflexivity].
      apply key_eqb_true in E. exfalso. apply Hout. rewrite <- E.
      now apply in_map.
Qed.

Lemma nlargest_of_selection (k k' : Z) (means : list (GroupKey * num)) :
  NoDup (map fst means) ->
  nlargest k'
    (filter (fun e => existsb (key_eqb (fst e)) (map fst (nlargest k means)))
            means)
  = nlargest (Z.min k k') means.
Proof.
  intros Hnd. rewrite !nlargest_firstn, ranking_filter.
  rewrite filter_firstn_keys
    by (apply (Permutation_NoDup
                 (Permutation_map fst
                    (Permutation_sym (ranking_perm means))) Hnd)).
  rewrite firstn_firstn. f_equal. lia.
Qed.

Section Top20Selection.
Import Top20DB.
Variable df : DataFrame.

Lemma get_top_rows_attach (k : Z) :
  df_rows (tmp k df)
  = map (attach df (means_df df))
        (merge_inner rec_key (df_rows df) (top_keys k df)).
Proof.
  unfold tmp, merge_left, attach. cbn [df_rows]. rewrite map_map.
  apply map_ext. intros r. reflexivity.
Qed.

Lemma get_top_means_of_output (k : Z) :
  means_df (tmp k df)
  = filter (fun e => existsb (key_eqb (fst e)) (top_keys k df))
           (means_df df).
Proof.
  unfold means_df at 1. rewrite get_top_rows_attach.
  rewrite groupby_mean_map
    with (keyof' := rec_key) (col' := monthly_concentration)
    by reflexivity.
  apply groupby_mean_merge_inner.
Qed.

Lemma get_top_keys_of_output (k k' : Z) :
  top_keys k' (tmp k df) = top_keys (Z.min k k') df.
Proof.
  unfold top_keys at 1. rewrite get_top_means_of_output.
  unfold top_keys. f_equal.
  apply nlargest_of_selection, Top20_means_df_NoDup.
Qed.

End Top20Selection.

Lemma get_top_tmp_twice (df : DataFrame) (k k' : Z) :
  Top20DB.tmp k' (Top20DB.tmp k df) = Top20DB.tmp (Z.min k k') df.
Proof.
  assert (Hrows : df_rows (Top20DB.tmp k' (Top20DB.tmp k df))
                  = df_rows (Top20DB.tmp (Z.min k k') df)).
  { rewrite (get_top_rows_attach (Top20DB.tmp k df) k').
    rewrite get_top_keys_of_output, !get_top_rows_attach.
    rewrite merge_inner_map with (keyof' := rec_key) by reflexivity.
    rewrite merge_inner_twice.
    - rewrite map_map. apply map_ext. intros r. reflexivity.
    - intros g Hg. unfold Top20DB.top_keys in *. apply in_map_iff in Hg.
      destruct Hg as [e [<- He]]. apply in_map.
      apply (nlargest_mono (Z.min k k') k); [lia | assumption]. }
  change (Top20DB.tmp k' (Top20DB.tmp k df))
    with (mkDataFrame result_cols
            (df_rows (Top20DB.tmp k' (Top20DB.tmp k df)))).
  now rewrite Hrows.
Qed.


(** X7.  Selecting the top [k'] groups of a top-[k] selection gives the
    top-[min k k'] selection of the original tables, frame for frame:
    [get_top] applied to a pickle that is itself a top-[k] selection
    returns what it would return on the unselected data, and applying it
    again with the same [k] changes nothing. *)
Theorem X7_get_top_of_a_selection :
  forall (base : dict (dict DataFrame)) (k k' : Z),
    Top20DB.get_top (Top20DB.get_top base k) k'
    = Top20DB.get_top base (Z.min k k').
Proof.
  intros base k k'. unfold Top20DB.get_top. rewrite map_map.
  apply map_ext. intros [mineral sub]. cbn [fst snd]. f_equal.
  rewrite map_map. apply map_ext. intros [name df]. cbn [fst snd].
  f_equal. apply get_top_tmp_twice.
Qed.

(** ** The scatter figures *)

Lemma renamed_label (label : string) :
  dict_get dot_renaming label
  = if String.eqb label VALUE_COL then Some "Detected Concentration"
    else if String.eqb label "YearMonth" then Some "Time" else None.
Proof. reflexivity. Qed.

Lemma rename_dot_twice (d : DataFrame) :
  rename dot_renaming (rename dot_renaming d) = rename dot_renaming d.
Proof.
  unfold rename. cbn [df_columns df_rows]. f_equal.
  rewrite map_map. apply map_ext. intros [label f]. cbn [fst snd].
  rewrite (renamed_label label).
  destruct (String.eqb label VALUE_COL) eqn:E1; [reflexivity|].
  destruct (String.eqb label "YearMonth") eqn:E2; [reflexivity|].
  cbn [fst snd]. now rewrite (renamed_label label), E1, E2.
Qed.

Lemma dot_loop_copy_inplace (ma : dict DataFrame) :
  dot_loop_copy ma = fst (dot_loop_inplace ma).
Proof.
  induction ma as [|[m d] ma IH]; simpl; [reflexivity|].
  destruct (dot_figure m (rename dot_renaming d)); [|reflexivity].
  rewrite IH. now destruct (dot_loop_inplace ma).
Qed.

Lemma dot_loop_inplace_twice (ma : dict DataFrame) :
  dot_loop_inplace (snd (dot_loop_inplace ma)) = dot_loop_inplace ma.
Proof.
  induction ma as [|[m d] ma IH]; simpl; [reflexivity|].
  destruct (dot_figure m (rename dot_renaming d)) as [fig|e] eqn:E.
  - destruct (dot_loop_inplace ma) as [o ma'] eqn:E'. cbn [snd] in *.
    simpl. now rewrite rename_dot_twice, E, IH.
  - cbn [snd]. simpl. now rewrite rename_dot_twice, E.
Qed.

Lemma dot_loop_inplace_keys (ma : dict DataFrame) :
  map fst (snd (dot_loop_inplace ma)) = map fst ma.
Proof.
  induction ma as [|[m d] ma IH]; simpl; [reflexivity|].
  destruct (dot_figure m (rename dot_renaming d)).
  - destruct (dot_loop_inplace ma). cbn [snd map fst] in *. now rewrite IH.
  - reflexivity.
Qed.

Lemma dict_set_set {V : Type} (d : dict V) (k : string) (v w : V) :
  dict_set (dict_set d k v) k w = dict_set d k w.
Proof.
  induction d as [|[k' v'] d IH]; simpl.
  - now rewrite String.eqb_refl.
  - destruct (String.eqb k k') eqn:E; simpl.
    + now rewrite String.eqb_refl.
    + now rewrite E, IH.
Qed.

(** X8.  Serving the same request again changes nothing more: a second
    [build_dot_fig] of [Top20DB.py] for the same mineral returns the
    figures (or the exception) of the first and leaves the store as the
    first left it. *)
Theorem X8_build_dot_fig_twice :
  forall (month_agg : dict (dict DataFrame)) (mineral : string),
    Top20DB.build_dot_fig
      (snd (Top20DB.build_dot_fig month_agg mineral)) mineral
    = Top20DB.build_dot_fig month_agg mineral.
Proof.
  intros month_agg mineral. unfold Top20DB.build_dot_fig.
  destruct (dict_get month_agg mineral) as [ma|] eqn:E.
  - destruct (dot_loop_inplace ma) as [o ma'] eqn:E'. cbn [snd].
    rewrite dict_get_set_eq.
    assert (H := dot_loop_inplace_twice ma). rewrite E' in H.
    cbn [snd] in H. rewrite H. now rewrite dict_set_set.
  - cbn [snd]. now rewrite E.
Qed.

(** X9.  The two ways of drawing agree on what they show: on every
    store and mineral, [build_dot_fig] of [20DB.py], which renames a copy,
    and [build_dot_fig] of [Top20DB.py], which renames in place, raise
    the same exception or build as many figures, with the same titles
    and the same ranges of the value axis, in the same order. *)
Theorem X9_copy_and_in_place_draw_the_same :
  forall (month_agg : dict (dict DataFrame)) (mineral : string),
    match fst (DB20.build_dot_fig month_agg mineral),
          fst (Top20DB.build_dot_fig month_agg mineral) with
    | Returned figures20, Returned figures =>
        map (fun fig => (fig_title fig, fig_yaxis_range fig)) figures20
        = map (fun fig => (fig_title fig, fig_yaxis_range fig)) figures
    | Raised e20, Raised e => e20 = e
    | _, _ => False
    end.
Proof.
  intros month_agg mineral.
  unfold DB20.build_dot_fig, Top20DB.build_dot_fig.
  destruct (dict_get month_agg mineral) as [ma|]; [|reflexivity].
  cbn [fst]. rewrite dot_loop_copy_inplace.
  destruct (dot_loop_inplace ma) as [o ma']. cbn [fst].
  destruct o; reflexivity.
Qed.

(** *** The range of the value axis *)

Lemma Qc_min_le_l (x y : Qc) : (Qc_min x y <= x)%Qc.
Proof.
  unfold Qc_min. destruct (Qclt_le_dec y x) as [H|H].
  - now apply Qclt_le_weak.
  - apply Qcle_refl.
Qed.

Lemma Qc_min_le_r (x y : Qc) : (Qc_min x y <= y)%Qc.
Proof.
  unfold Qc_min. destruct (Qclt_le_dec y x) as [H|H].
  - apply Qcle_refl.
  - assumption.
Qed.

Lemma Qc_max_ge_l (x y : Qc) : (x <= Qc_max x y)%Qc.
Proof.
  unfold Qc_max. destruct (Qclt_le_dec x y) as [H|H].
  - now apply Qclt_le_weak.
  - apply Qcle_refl.
Qed.

Lemma Qc_max_ge_r (x y : Qc) : (y <= Qc_max x y)%Qc.
Proof.
  unfold Qc_max. destruct (Qclt_le_dec x y) as [H|H].
  - apply Qcle_refl.
  - assumption.
Qed.

Lemma fold_min_le (vs : list Qc) (v0 : Qc) :
  (fold_left Qc_min vs v0 <= v0)%Qc /\
  forall v, In v vs -> (fold_left Qc_min vs v0 <= v)%Qc.
Proof.
  revert v0. induction vs as [|x vs IH]; intros v0; simpl.
  - split; [apply Qcle_refl | now intros v []].
  - destruct (IH (Qc_min v0 x)) as [H0 Hall]. split.
    + eapply Qcle_trans; [exact H0 | apply Qc_min_le_l].
    + intros v [<-|Hv]; [|now apply Hall].
      eapply Qcle_trans; [exact H0 | apply Qc_min_le_r].
Qed.

Lemma fold_max_ge (vs : list Qc) (v0 : Qc) :
  (v0 <= fold_left Qc_max vs v0)%Qc /\
  forall v, In v vs -> (v <= fold_left Qc_max vs v0)%Qc.
Proof.
  revert v0. induction vs as [|x vs IH]; intros v0; simpl.
  - split; [apply Qcle_refl | now intros v []].
  - destruct (IH (Qc_max v0 x)) as [H0 Hall]. split.
    + eapply Qcle_trans; [apply Qc_max_ge_l | exact H0].
    + intros v [<-|Hv]; [|now apply Hall].
      eapply Qcle_trans; [apply Qc_max_ge_r | exact H0].
Qed.

Lemma series_min_le (cells : list num) (lo v : Qc) :
  series_min cells = Some lo -> In (Some v) cells -> (lo <= v)%Qc.
Proof.
  unfold series_min. intros H Hv.
  assert (Hin : In v (skipna cells)).
  { clear H. induction cells as [|[c|] cells IH]; simpl in *.
    - contradiction.
    - destruct Hv as [Hv|Hv]; [left; congruence | right; auto].
    - destruct Hv as [Hv|Hv]; [discriminate | auto]. }
  destruct (skipna cells) as [|v0 vs]; [discriminate|].
  inversion H; subst. destruct (fold_min_le vs v0) as [H0 Hall].
  destruct Hin as [<-|Hin]; auto.
Qed.

Lemma series_max_ge (cells : list num) (hi v : Qc) :
  series_max cells = Some hi -> In (Some v) cells -> (v <= hi)%Qc.
Proof.
  unfold series_max. intros H Hv.
  assert (Hin : In v (skipna cells)).
  { clear H. induction cells as [|[c|] cells IH]; simpl in *.
    - contradiction.
    - destruct Hv as [Hv|Hv]; [left; congruence | right; auto].
    - destruct Hv as [Hv|Hv]; [discriminate | auto]. }
  destruct (skipna cells) as [|v0 vs]; [discriminate|].
  inversion H; subst. destruct (fold_max_ge vs v0) as [H0 Hall].
  destruct Hin as [<-|Hin]; auto.
Qed.

Lemma pad_ge_1 (ymin ymax : Qc) : (of_Z 1 <= pad ymin ymax)%Qc.
Proof. unfold pad. apply Qc_max_ge_l. Qed.

Lemma Qc_margin_low (lo v p : Qc) :
  (lo <= v)%Qc -> (of_Z 1 <= p)%Qc -> (lo - p <= v - of_Z 1)%Qc.
Proof.
  intros H1 H2. unfold Qcminus.
  apply Qcplus_le_compat; [assumption|]. now apply Qcopp_le_compat.
Qed.

Lemma Qc_margin_high (hi v p : Qc) :
  (v <= hi)%Qc -> (of_Z 1 <= p)%Qc -> (v + of_Z 1 <= hi + p)%Qc.
Proof. intros H1 H2. now apply Qcplus_le_compat. Qed.

(** X10.  The value axis of a scatter figure leaves a margin of at least
    1 around the data: when the figure has a range, every value of its
    "Detected Concentration" column lies at least 1 above the lower end
    and at least 1 below the upper end; and the figure has no range
    exactly when that column holds no value. *)
Theorem X10_axis_range_contains_the_values :
  forall (m : string) (d : DataFrame) (fig : Figure) (cells : list num),
    dot_figure m d = Returned fig ->
    num_column d "Detected Concentration" = Returned cells ->
    (forall lo hi v,
        fig_yaxis_range fig = Some (lo, hi) ->
        In (Some v) cells ->
        (lo <= v - of_Z 1)%Qc /\ (v + of_Z 1 <= hi)%Qc) /\
    (fig_yaxis_range fig = None <-> skipna cells = []).
Proof.
  intros m d fig cells Hfig Hcol. unfold dot_figure in Hfig.
  rewrite Hcol in Hfig. inversion Hfig as [Hf]. clear Hfig.
  cbn [fig_yaxis_range]. split.
  - intros lo hi v Hrange Hv.
    destruct (series_min cells) as [ymin|] eqn:Emin; [|discriminate].
    destruct (series_max cells) as [ymax|] eqn:Emax; [|discriminate].
    inversion Hrange; subst lo hi. split.
    + apply Qc_margin_low; [now apply (series_min_le cells) | apply pad_ge_1].
    + apply Qc_margin_high;
        [now apply (series_max_ge cells) | apply pad_ge_1].
  - unfold series_min, series_max.
    destruct (skipna cells); split; congruence.
Qed.

Lemma X10_witness :
  exists fig cells,
    dot_figure "Total" (rename dot_renaming Sample.df_sites) = Returned fig /\
    num_column (rename dot_renaming Sample.df_sites)
               "Detected Concentration" = Returned cells /\
    forall lo hi v,
      fig_yaxis_range fig = Some (lo, hi) ->
      In (Some v) cells ->
      (lo <= v - of_Z 1)%Qc /\ (v + of_Z 1 <= hi)%Qc.
Proof.
  eexists. eexists.
  assert (H1 : dot_figure "Total" (rename dot_renaming Sample.df_sites)
               = Returned
                   (match dot_figure "Total"
                            (rename dot_renaming Sample.df_sites) with
                    | Returned f => f
                    | Raised _ =>
                        mkFigure Sample.df_sites "" "" "" "" "" None 0
                    end)) by (vm_compute; reflexivity).
  assert (H2 : num_column (rename dot_renaming Sample.df_sites)
                          "Detected Concentration"
               = Returned (map monthly_concentration
                               (df_rows Sample.df_sites)))
    by reflexivity.
  split; [exact H1|]. split; [exact H2|].
  exact (proj1 (X10_axis_range_contains_the_values _ _ _ _ H1 H2)).
Defined.

(** *** Figures of the frames the aggregators return *)

Lemma dot_figure_result_cols (m : string) (d : DataFrame) :
  df_columns d = result_cols ->
  exists fig,
    dot_figure m (rename dot_renaming d) = Returned fig /\
    fig_title fig = String.append "Concentration of " m /\
    fig_data fig = rename dot_renaming d.
Proof.
  intros H. unfold dot_figure, num_column, rename.
  cbn [df_columns df_rows]. rewrite H. cbn [result_cols basic_cols app map].
  eexists. split; [reflexivity|]. split; reflexivity.
Qed.

Lemma dot_loop_inplace_result_cols (ma : dict DataFrame) :
  (forall m d, In (m, d) ma -> df_columns d = result_cols) ->
  exists figures,
    fst (dot_loop_inplace ma) = Returned figures /\
    map fig_title figures
    = map (fun md => String.append "Concentration of " (fst md)) ma /\
    snd (dot_loop_inplace ma)
    = map (fun md => (fst md, rename dot_renaming (snd md))) ma.
Proof.
  induction ma as [|[m d] ma IH]; intros H.
  - exists []. repeat split.
  - destruct (dot_figure_result_cols m d (H m d (or_introl eq_refl)))
      as [fig [Hfig [Htitle _]]].
    destruct IH as [figures [Hf [Ht Hs]]];
      [intros m' d' Hin; apply (H m' d'); now right|].
    exists (fig :: figures). simpl. rewrite Hfig.
    destruct (dot_loop_inplace ma) as [o ma']. cbn [fst snd] in *.
    subst o ma'. cbn [fst snd map]. rewrite Htitle, Ht. repeat split.
Qed.

Lemma dict_set_In {V : Type} (d : dict V) (k k' : string) (v v' : V) :
  In (k', v') (dict_set d k v) -> (k', v') = (k, v) \/ In (k', v') d.
Proof.
  induction d as [|[k0 v0] d IH]; simpl.
  - intros [H|[]]. left. now symmetry.
  - destruct (String.eqb k k0); simpl.
    + intros [H|H]; [left; now symmetry | right; now right].
    + intros [H|H]; [right; now left|].
      destruct (IH H) as [H'|H']; [now left | right; now right].
Qed.

Lemma dict_fold_In {V : Type} (f : string -> V) (ms : list string)
  (init : dict V) (k : string) (v : V) :
  In (k, v) (fold_left (fun out m => dict_set out m (f m)) ms init) ->
  In (k, v) init \/ v = f k.
Proof.
  revert init. induction ms as [|m ms IH]; intros init; simpl.
  - now left.
  - intros H. destruct (IH _ H) as [H'|H']; [|now right].
    apply dict_set_In in H'. destruct H' as [H'|H']; [|now left].
    inversion H'. now right.
Qed.

Lemma dict_get_In {V : Type} (d : dict V) (k : string) (v : V) :
  dict_get d k = Some v -> In (k, v) d.
Proof.
  induction d as [|[k' v'] d IH]; simpl; [discriminate|].
  destruct (String.eqb k k') eqn:E.
  - apply String.eqb_eq in E. subst. intros H. inversion H. now left.
  - intros H. right. now apply IH.
Qed.

Lemma dict_get_key {V : Type} (d : dict V) (k : string) :
  In k (map fst d) <-> dict_get d k <> None.
Proof.
  induction d as [|[k' v'] d IH]; simpl.
  - split; [contradiction | congruence].
  - destruct (String.eqb k k') eqn:E.
    + apply String.eqb_eq in E. subst. split; [discriminate | now left].
    + rewrite <- IH. split; [|now right].
      intros [H|H]; [|assumption]. subst.
      now rewrite String.eqb_refl in E.
Qed.

Lemma get_top_get (base : dict (dict DataFrame)) (k : Z)
  (mineral : string) :
  dict_get (Top20DB.get_top base k) mineral
  = option_map (map (fun sub => (fst sub, Top20DB.tmp k (snd sub))))
               (dict_get base mineral).
Proof.
  unfold Top20DB.get_top.
  induction base as [|[key sub] base IH]; simpl; [reflexivity|].
  now destruct (String.eqb mineral key).
Qed.

Lemma get_top_figures (base : dict (dict DataFrame)) (k : Z)
  (mineral : string) (sub : dict DataFrame) :
  dict_get base mineral = Some sub ->
  exists figures,
    fst (Top20DB.build_dot_fig (Top20DB.get_top base k) mineral)
    = Returned figures /\
    map fig_title figures
    = map (fun md => String.append "Concentration of " (fst md)) sub.
Proof.
  intros Hsub. unfold Top20DB.build_dot_fig.
  rewrite get_top_get, Hsub. cbn [option_map].
  destruct (dot_loop_inplace_result_cols
              (map (fun it => (fst it, Top20DB.tmp k (snd it))) sub))
    as [figures [Hf [Ht _]]].
  - intros m d Hin. apply in_map_iff in Hin.
    destruct Hin as [[name df] [Heq _]]. inversion Heq. reflexivity.
  - exists figures.
    destruct (dot_loop_inplace
                (map (fun it => (fst it, Top20DB.tmp k (snd it))) sub)).
    cbn [fst] in *. split; [assumption|].
    rewrite Ht, map_map. reflexivity.
Qed.

(** X11.  No column is missing when the scatter figures of what the
    aggregators return are drawn: [build_dot_fig] raises [KeyError] on no
    result of [select_topk_pairs], and on [get_top]'s result only for a
    mineral the pickle lacks, leaving the store alone; otherwise it
    builds one figure for each metric, in order, titled "Concentration
    of" the metric. *)
Theorem X11_scatter_figures_are_drawn :
  (forall (base : DB.Frame) (mineral : string) (k : Z),
      exists figures,
        fst (DB.build_dot_fig (DB.select_topk_pairs base mineral k) mineral)
        = Returned figures /\
        map fig_title figures
        = map (fun md => String.append "Concentration of " (fst md))
              (DB.select_topk_pairs base mineral k))
  /\
  (forall (base : dict (dict DataFrame)) (k : Z) (mineral : string)
          (sub : dict DataFrame),
      dict_get base mineral = Some sub ->
      exists figures,
        fst (Top20DB.build_dot_fig (Top20DB.get_top base k) mineral)
        = Returned figures /\
        map fig_title figures
        = map (fun md => String.append "Concentration of " (fst md)) sub)
  /\
  (forall (base : dict (dict DataFrame)) (k : Z) (mineral : string),
      dict_get base mineral = None ->
      Top20DB.build_dot_fig (Top20DB.get_top base k) mineral
      = (Raised (KeyError mineral), Top20DB.get_top base k)).
Proof.
  split; [|split].
  - intros base mineral k. unfold DB.build_dot_fig.
    destruct (dot_loop_inplace_result_cols
                (DB.select_topk_pairs base mineral k))
      as [figures [Hf [Ht _]]].
    + intros m d Hin. unfold DB.select_topk_pairs in Hin.
      apply dict_fold_In in Hin. destruct Hin as [[]| ->]. reflexivity.
    + exists figures. auto.
  - intros base k mineral sub Hsub. now apply get_top_figures.
  - intros base k mineral Hnone. unfold Top20DB.build_dot_fig.
    now rewrite get_top_get, Hnone.
Qed.

Lemma X11_witness :
  dict_get Sample.raw_base "Magnesium" = Some [("Total", Sample.df_sites)] /\
  exists figures,
    fst (Top20DB.build_dot_fig (Top20DB.get_top Sample.raw_base 5)
                               "Magnesium")
    = Returned figures /\
    map fig_title figures = ["Concentration of Total"].
Proof.
  assert (H : dict_get Sample.raw_base "Magnesium"
              = Some [("Total", Sample.df_sites)]) by reflexivity.
  split; [exact H|].
  exact (proj1 (proj2 X11_scatter_figures_are_drawn)
               Sample.raw_base 5%Z "Magnesium" _ H).
Defined.

(** ** The map figure of the pickled programs *)

(** X12.  [build_geo_fig] of [Top20DB.py] on [get_top]'s result raises
    [KeyError] for a mineral the pickle lacks and for a mineral without a
    "Total" table, and otherwise reaches [px.scatter_geo] with the
    selection of that table as the data to draw.  [build_geo_fig] of
    [20DB.py] raises on the same inputs, and otherwise hands over a frame
    cut down to the five columns of the map, with the same rows. *)
Theorem X12_map_figure_of_the_pickle :
  forall (base : dict (dict DataFrame)) (k : Z) (mineral : string),
    (dict_get base mineral = None ->
     Top20DB.build_geo_fig (Top20DB.get_top base k) mineral k
     = Raised (KeyError mineral) /\
     DB20.build_geo_fig (DB20.get_top base k) mineral k
     = Raised (KeyError mineral)) /\
    (dict_get base mineral <> None ->
     Top20DB.frame_at base mineral "Total" = None ->
     Top20DB.build_geo_fig (Top20DB.get_top base k) mineral k
     = Raised (KeyError "Total") /\
     DB20.build_geo_fig (DB20.get_top base k) mineral k
     = Raised (KeyError "Total")) /\
    (forall df,
        Top20DB.frame_at base mineral "Total" = Some df ->
        (exists fig,
            Top20DB.build_geo_fig (Top20DB.get_top base k) mineral k
            = Returned fig /\
            DB.geo_data fig = Top20DB.tmp k df) /\
        (exists fig,
            DB20.build_geo_fig (DB20.get_top base k) mineral k
            = Returned fig /\
            map fst (df_columns (DB.geo_data (DB20.geo_figure fig)))
            = DB20.geo_cols /\
            df_rows (DB.geo_data (DB20.geo_figure fig))
            = df_rows (Top20DB.tmp k df))).
Proof.
  intros base k mineral.
  unfold Top20DB.build_geo_fig, DB20.build_geo_fig, DB20.get_top.
  assert (Hat := get_top_frame_at base k mineral "Total").
  unfold Top20DB.frame_at in *. rewrite get_top_get in *.
  destruct (dict_get base mineral) as [sub|]; cbn [option_map] in *.
  - split; [discriminate|]. split.
    + intros _ Hnone. rewrite Hnone in Hat. cbn [option_map] in Hat.
      rewrite Hat. split; reflexivity.
    + intros df Hdf. rewrite Hdf in Hat. cbn [option_map] in Hat.
      rewrite Hat. split; eexists; repeat split.
  - split; [split; reflexivity|]. split; [congruence | discriminate].
Qed.

Lemma X12_witness :
  Top20DB.frame_at Sample.raw_base "Magnesium" "Total"
  = Some Sample.df_sites /\
  exists fig,
    Top20DB.build_geo_fig (Top20DB.get_top Sample.raw_base 5) "Magnesium" 5
    = Returned fig /\
    DB.geo_data fig = Top20DB.tmp 5 Sample.df_sites.
Proof.
  assert (H : Top20DB.frame_at Sample.raw_base "Magnesium" "Total"
              = Some Sample.df_sites) by reflexivity.
  split; [exact H|].
  exact (proj1 (proj2 (proj2 (X12_map_figure_of_the_pickle
                                Sample.raw_base 5%Z "Magnesium"))
                      _ H)).
Defined.

(** ** The ranking tables *)

Lemma ranked_geb_ord (a b : Ranked) :
  ranked_geb a b = true -> mean_ge (snd a) (snd b).
Proof.
  unfold ranked_geb, mean_ge.
  destruct (snd a) as [x|], (snd b) as [y|]; try easy.
  destruct (x ?= y)%Qc eqn:E; try discriminate; intros _.
  - apply Qceq_alt in E. subst. apply Qcle_refl.
  - apply Qclt_le_weak. now apply Qcgt_alt.
Qed.

Lemma ranked_geb_total (a b : Ranked) :
  ranked_geb a b = false -> mean_ge (snd b) (snd a).
Proof.
  unfold ranked_geb, mean_ge.
  destruct (snd a) as [x|], (snd b) as [y|]; try easy.
  destruct (x ?= y)%Qc eqn:E; try discriminate; intros _.
  apply Qclt_le_weak. now apply Qclt_alt.
Qed.

Lemma sort_values_desc_sorted (tbl : list Ranked) :
  StronglySorted (fun a b => mean_ge (snd a) (snd b))
                 (sort_values_desc tbl).
Proof.
  apply stable_sort_sorted.
  - apply ranked_geb_ord.
  - apply ranked_geb_total.
  - intros x y z. apply mean_ge_trans.
Qed.

Lemma StronglySorted_filter {A : Type} (ord : A -> A -> Prop)
  (p : A -> bool) (l : list A) :
  StronglySorted ord l -> StronglySorted ord (filter p l).
Proof.
  induction 1 as [|x l Hs IH Hall]; simpl; [constructor|].
  destruct (p x); [|exact IH]. constructor; [exact IH|].
  rewrite Forall_forall in *. intros z Hz. apply filter_In in Hz.
  now apply Hall.
Qed.

Lemma drop_duplicates_In (t : Ranked) (tbl : list Ranked) :
  In t (drop_duplicates tbl) <-> In t tbl.
Proof.
  induction tbl as [|u tbl IH]; simpl; [reflexivity|].
  rewrite filter_In, IH. split.
  - intros [H|[H _]]; auto.
  - intros [H|H]; [now left|].
    destruct (Ranked_eq_dec u t) as [E|E]; [now left | right].
    split; [assumption|]. now destruct (Ranked_eq_dec u t).
Qed.

Lemma NoDup_filter {A : Type} (p : A -> bool) (l : list A) :
  NoDup l -> NoDup (filter p l).
Proof.
  induction 1 as [|x l Hout Hnd IH]; simpl; [constructor|].
  destruct (p x); [|exact IH]. constructor; [|exact IH].
  intros H. apply filter_In in H. tauto.
Qed.

Lemma drop_duplicates_NoDup (tbl : list Ranked) :
  NoDup (drop_duplicates tbl).
Proof.
  induction tbl as [|t tbl IH]; simpl; constructor.
  - intros H. apply filter_In in H. destruct H as [_ H].
    now destruct (Ranked_eq_dec t t).
  - now apply NoDup_filter.
Qed.

Lemma drop_duplicates_sorted (ord : Ranked -> Ranked -> Prop)
  (tbl : list Ranked) :
  StronglySorted ord tbl -> StronglySorted ord (drop_duplicates tbl).
Proof.
  induction 1 as [|t tbl Hs IH Hall]; simpl; constructor.
  - now apply StronglySorted_filter.
  - rewrite Forall_forall in *. intros z Hz. apply filter_In in Hz.
    destruct Hz as [Hz _]. apply Hall. now apply (drop_duplicates_In z tbl).
Qed.

Lemma sort_then_drop (tbl : list Ranked) :
  ranked_table_of tbl (drop_duplicates (sort_values_desc tbl)).
Proof.
  repeat split.
  - apply drop_duplicates_NoDup.
  - intros H. apply (proj1 (drop_duplicates_In _ _)) in H.
    now apply (proj1 (stable_sort_In _ _ _)) in H.
  - intros H. apply drop_duplicates_In. now apply stable_sort_In.
  - apply drop_duplicates_sorted, sort_values_desc_sorted.
Qed.

Lemma drop_then_sort (tbl : list Ranked) :
  ranked_table_of tbl (sort_values_desc (drop_duplicates tbl)).
Proof.
  repeat split.
  - eapply Permutation_NoDup; [apply stable_sort_perm|].
    apply drop_duplicates_NoDup.
  - intros H. apply (proj1 (stable_sort_In _ _ _)) in H.
    now apply (proj1 (drop_duplicates_In _ _)) in H.
  - intros H. apply stable_sort_In. now apply drop_duplicates_In.
  - apply sort_values_desc_sorted.
Qed.

Lemma find_renamed (label : string) (columns : list (string * Field)) :
  label <> VALUE_COL -> label <> "YearMonth" ->
  label <> "Detected Concentration" -> label <> "Time" ->
  option_map snd
    (find (fun c => String.eqb label (fst c))
          (map (fun c => match dict_get dot_renaming (fst c) with
                         | Some new => (new, snd c)
                         | None => c
                         end) columns))
  = option_map snd (find (fun c => String.eqb label (fst c)) columns).
Proof.
  intros H1 H2 H3 H4.
  induction columns as [|[l f] columns IH]; [reflexivity|].
  cbn [map fst snd]. rewrite (renamed_label l).
  destruct (String.eqb l VALUE_COL) eqn:E1.
  - apply String.eqb_eq in E1. subst l. cbn [find fst snd].
    rewrite (proj2 (String.eqb_neq _ _) H3), (proj2 (String.eqb_neq _ _) H1).
    exact IH.
  - destruct (String.eqb l "YearMonth") eqn:E2.
    + apply String.eqb_eq in E2. subst l. cbn [find fst snd].
      rewrite (proj2 (String.eqb_neq _ _) H4),
              (proj2 (String.eqb_neq _ _) H2).
      exact IH.
    + cbn [find fst snd].
      destruct (String.eqb label l); [reflexivity | exact IH].
Qed.

Lemma ranked_columns_rename (d : DataFrame) :
  ranked_columns (rename dot_renaming d) = ranked_columns d.
Proof.
  unfold ranked_columns, field_of, rename. cbn [df_columns df_rows].
  rewrite !find_renamed by discriminate. reflexivity.
Qed.

Lemma ranked_columns_result_cols (d : DataFrame) :
  df_columns d = result_cols ->
  ranked_columns d = Returned (map ranked_of (df_rows d)).
Proof.
  intros H. unfold ranked_columns, field_of. rewrite H. reflexivity.
Qed.

Lemma table_loop_renamed (tbs : dict (list TableRow)) (ma : dict DataFrame) :
  table_loop tbs (snd (dot_loop_inplace ma)) = table_loop tbs ma.
Proof.
  revert tbs. induction ma as [|[m d] ma IH]; intros tbs; simpl;
    [reflexivity|].
  destruct (dot_figure m (rename dot_renaming d)).
  - destruct (dot_loop_inplace ma) as [o ma'] eqn:E. cbn [snd] in *.
    simpl. rewrite ranked_columns_rename.
    destruct (ranked_columns d); [apply IH | reflexivity].
  - cbn [snd]. simpl. now rewrite ranked_columns_rename.
Qed.

Lemma table_data_after_dot_fig (BASE : dict (dict DataFrame))
  (mineral mineral' : string) :
  Top20DB.build_table_data
    (snd (Top20DB.build_dot_fig BASE mineral)) mineral'
  = Top20DB.build_table_data BASE mineral'.
Proof.
  unfold Top20DB.build_table_data, Top20DB.build_dot_fig.
  destruct (dict_get BASE mineral) as [ma|] eqn:E; [|reflexivity].
  destruct (dot_loop_inplace ma) as [o ma'] eqn:E'. cbn [snd].
  destruct (String.eqb mineral' mineral) eqn:Em.
  - apply String.eqb_eq in Em. subst mineral'.
    rewrite dict_get_set_eq, E.
    replace ma' with (snd (dot_loop_inplace ma)) by now rewrite E'.
    apply table_loop_renamed.
  - rewrite dict_get_set_neq; [reflexivity|].
    intros ->. now rewrite String.eqb_refl in Em.
Qed.

(** X13.  The in-place renaming of the scatter figures does not reach the
    ranking tables: [build_table_data] returns the same tables (or the
    same exception) on the frames as [build_dot_fig] has left them as on
    the frames before, in [DB.py], where the tables are built after the
    figures of the same request, and in [Top20DB.py], for any later
    request. *)
Theorem X13_tables_ignore_the_renaming :
  (forall (qm : dict DataFrame) (mineral : string),
      DB.build_table_data (snd (DB.build_dot_fig qm mineral))
      = DB.build_table_data qm)
  /\
  (forall (BASE : dict (dict DataFrame)) (mineral mineral' : string),
      Top20DB.build_table_data
        (snd (Top20DB.build_dot_fig BASE mineral)) mineral'
      = Top20DB.build_table_data BASE mineral').
Proof.
  split.
  - intros qm mineral. unfold DB.build_table_data, DB.build_dot_fig.
    apply table_loop_renamed.
  - intros BASE mineral mineral'. apply table_data_after_dot_fig.
Qed.

Lemma table_loop_returns (tbs : dict (list TableRow)) (dfs : dict DataFrame) :
  (forall m d, In (m, d) dfs -> df_columns d = result_cols) ->
  exists out,
    table_loop tbs dfs = Returned out /\
    forall label recs,
      In (label, recs) out ->
      In (label, recs) tbs \/
      exists m d,
        In (m, d) dfs /\ label = table_label m /\
        recs = map table_row
                   (drop_duplicates
                      (sort_values_desc (map ranked_of (df_rows d)))).
Proof.
  revert tbs. induction dfs as [|[m d] dfs IH]; intros tbs H.
  - exists tbs. split; [reflexivity | now left].
  - simpl.
    rewrite (ranked_columns_result_cols d (H m d (or_introl eq_refl))).
    destruct (IH (dict_set tbs (table_label m)
                    (map table_row
                       (drop_duplicates
                          (sort_values_desc (map ranked_of (df_rows d)))))))
      as [out [Hout Hall]]; [intros m' d' Hin; apply (H m' d'); now right|].
    exists out. split; [exact Hout|].
    intros label recs Hin. destruct (Hall label recs Hin) as [Hl|Hr].
    + apply dict_set_In in Hl. destruct Hl as [Hl|Hl]; [|now left].
      inversion Hl; subst. right. exists m, d.
      repeat split. now left.
    + destruct Hr as [m' [d' [Hin' Hrest]]]. right. exists m', d'.
      split; [now right | exact Hrest].
Qed.

Lemma table_length_bound (rows : list Rec) (mean_of : GroupKey -> num)
  (out : list Ranked) :
  (forall x, In x rows ->
             exists g, rec_key x = Some g /\
                       average_monthly_concentration x = mean_of g) ->
  NoDup out -> (forall t, In t out -> In t (map ranked_of rows)) ->
  (List.length out <= List.length (distinct_keys rows))%nat.
Proof.
  intros Hrows Hnd Hincl.
  rewrite <- (length_map
                (fun g => (Some (key_site g), Some (key_type g), mean_of g))
                (distinct_keys rows)).
  apply NoDup_incl_length; [exact Hnd|].
  intros t Ht. apply Hincl in Ht. apply in_map_iff in Ht.
  destruct Ht as [x [<- Hx]]. destruct (Hrows x Hx) as [g [Hk Havg]].
  apply in_map_iff. exists g. split.
  - unfold ranked_of. rewrite Havg. unfold rec_key in Hk.
    apply gb_Some in Hk. destruct Hk as [H1 [_ [_ H4]]].
    now rewrite H1, H4.
  - apply distinct_keys_In. now exists x.
Qed.

Lemma DB_distinct_keys_le (base : DB.Frame) (mineral : string) (k : Z)
  (m : string) :
  In m (DB.metrics base mineral) ->
  (List.length (distinct_keys (df_rows (DB.tmp base mineral k m)))
   <= Z.to_nat k)%nat.
Proof.
  intros Hm.
  assert (Hb : (List.length (distinct_keys (df_rows (DB.tmp base mineral k m)))
                <= List.length (DB.top_keys base mineral k m))%nat).
  { apply distinct_keys_bound. intros x g Hx Hkx.
    apply (tmp_rows base mineral m Hm) in Hx.
    destruct Hx as [r [g' [_ [_ [Hk [Hg ->]]]]]].
    unfold rec_key in Hkx. cbn [keep] in Hkx. unfold DB.row_key in Hk.
    congruence. }
  unfold DB.top_keys in Hb. rewrite top_length in Hb. lia.
Qed.

(** X14.  The ranking tables of a result of [select_topk_pairs] are
    always built, and each table lists the groups of one metric, never
    more than [k] of them (for [k >= 0]): its records are the distinct
    (site, type, mean) rows of that metric's output, by descending mean,
    the mean written with two decimals; the table of a metric whose name
    contains "Total" is labelled "Total Detected Concentration". *)
Theorem X14_ranking_tables :
  forall (base : DB.Frame) (mineral : string) (k : Z),
    exists tbs,
      DB.build_table_data (DB.select_topk_pairs base mineral k)
      = Returned tbs /\
      forall label recs,
        dict_get tbs label = Some recs ->
        exists m tbl,
          In m (DB.metrics base mineral) /\
          label = table_label m /\
          recs = map table_row tbl /\
          ranked_table_of
            (map ranked_of (df_rows (DB.tmp base mineral k m))) tbl /\
          ((0 <= k)%Z -> (Z.of_nat (List.length recs) <= k)%Z).
Proof.
  intros base mineral k. unfold DB.build_table_data.
  assert (Hvals : forall m d,
             In (m, d) (DB.select_topk_pairs base mineral k) ->
             In m (DB.metrics base mineral) /\ d = DB.tmp base mineral k m).
  { intros m d Hin.
    assert (Hd : d = DB.tmp base mineral k m).
    { unfold DB.select_topk_pairs in Hin. apply dict_fold_In in Hin.
      now destruct Hin as [[]|Hin]. }
    split; [|exact Hd].
    assert (Hkey : In m (map fst (DB.select_topk_pairs base mineral k)))
      by (now apply (in_map fst) in Hin).
    apply dict_get_key in Hkey. rewrite select_topk_pairs_get in Hkey.
    destruct (existsb (String.eqb m) (DB.metrics base mineral)) eqn:E;
      [now apply existsb_eqb_In | congruence]. }
  destruct (table_loop_returns [] (DB.select_topk_pairs base mineral k))
    as [tbs [Htbs Hall]].
  { intros m d Hin. destruct (Hvals m d Hin) as [_ ->]. reflexivity. }
  exists tbs. split; [exact Htbs|].
  intros label recs Hget. apply dict_get_In in Hget.
  destruct (Hall label recs Hget) as [[]|[m [d [Hin [Hl Hr]]]]].
  destruct (Hvals m d Hin) as [Hm ->].
  exists m, (drop_duplicates
               (sort_values_desc
                  (map ranked_of (df_rows (DB.tmp base mineral k m))))).
  pose proof (sort_then_drop
                (map ranked_of (df_rows (DB.tmp base mineral k m))))
    as Htable.
  repeat split; try assumption; try apply Htable.
  intros Hk. subst recs. rewrite length_map.
  assert (Hlen :
    (List.length
       (drop_duplicates
          (sort_values_desc
             (map ranked_of (df_rows (DB.tmp base mineral k m)))))
     <= List.length (distinct_keys (df_rows (DB.tmp base mineral k m))))%nat).
  { apply (table_length_bound _
             (lookup_mean (DB.means_df base mineral m))).
    - intros x Hx. apply (tmp_rows base mineral m Hm) in Hx.
      destruct Hx as [r [g [_ [_ [Hkr [_ ->]]]]]]. exists g.
      split; [exact Hkr | reflexivity].
    - apply Htable.
    - intros t Ht. now apply Htable. }
  pose proof (DB_distinct_keys_le base mineral k m Hm). lia.
Qed.

Lemma X14_witness :
  exists tbs,
    DB.build_table_data (DB.select_topk_pairs Sample.base_two "Magnesium" 1)
    = Returned tbs /\
    forall label recs,
      dict_get tbs label = Some recs ->
      (0 <= 1)%Z -> (Z.of_nat (List.length recs) <= 1)%Z.
Proof.
  destruct (X14_ranking_tables Sample.base_two "Magnesium" 1%Z)
    as [tbs [Htbs Hall]].
  exists tbs. split; [exact Htbs|].
  intros label recs Hget.
  destruct (Hall label recs Hget) as [m [tbl [_ [_ [_ [_ Hlen]]]]]].
  exact Hlen.
Defined.

(** ** The minerals of the dropdown *)

Lemma contains_unfold (s sub : string) :
  DB.contains s sub
  = (prefix sub s
     || match s with
        | EmptyString => false
        | String _ s' => DB.contains s' sub
        end).
Proof. now destruct s. Qed.

Lemma prefix_append (x t : string) : prefix x (String.append x t) = true.
Proof.
  induction x as [|a x IH]; simpl.
  - now destruct t.
  - destruct (ascii_dec a a); [exact IH | congruence].
Qed.

Lemma contains_append (pre x t : string) :
  DB.contains (String.append pre (String.append x t)) x = true.
Proof.
  induction pre as [|a pre IH].
  - cbn [String.append]. rewrite contains_unfold, prefix_append.
    reflexivity.
  - cbn [String.append]. rewrite contains_unfold, IH. apply orb_true_r.
Qed.

Lemma append_assoc (a b c : string) :
  String.append (String.append a b) c = String.append a (String.append b c).
Proof. induction a as [|x a IH]; simpl; [reflexivity | now rewrite IH]. Qed.

Lemma append_nil_r (a : string) : String.append a EmptyString = a.
Proof. induction a as [|x a IH]; simpl; [reflexivity | now rewrite IH]. Qed.

(** The first word [split_from] returns continues [word] when a word is
    under way, and is a piece of [s] otherwise. *)
Lemma split_from_first (s word x : string) (rest : list string) :
  split_from s word = x :: rest ->
  match word with
  | EmptyString =>
      exists pre t, s = String.append pre (String.append x t)
  | String _ _ =>
      exists u t, x = String.append word u /\ s = String.append u t
  end.
Proof.
  revert word. induction s as [|c s IH]; intros word H.
  - destruct word as [|a w]; simpl in H; [discriminate|].
    inversion H; subst. exists EmptyString, EmptyString.
    now rewrite append_nil_r.
  - simpl in H. destruct (is_space c).
    + destruct word as [|a w].
      * apply IH in H. destruct H as [pre [t Hs]].
        exists (String c pre), t. simpl. now rewrite Hs.
      * inversion H; subst. exists EmptyString, (String c s).
        now rewrite append_nil_r.
    + apply IH in H.
      destruct (String.append word (String c EmptyString)) as [|a w] eqn:E;
        [now destruct word|].
      destruct H as [u [t [Hx Hs]]]. rewrite <- E in Hx.
      destruct word as [|b w'].
      * exists EmptyString, t. simpl in Hx. simpl. now rewrite Hx, Hs.
      * exists (String c u), t. rewrite Hx, append_assoc, Hs. now simpl.
Qed.

Lemma split_from_nil (s word : string) :
  split_from s word = [] ->
  word = EmptyString /\
  forallb is_space (list_ascii_of_string s) = true.
Proof.
  revert word. induction s as [|c s IH]; intros word H; simpl in H.
  - destruct word; [now split | discriminate].
  - simpl. destruct (is_space c) eqn:E.
    + destruct word; [|discriminate]. now apply IH in H.
    + apply IH in H. destruct H as [H _]. now destruct word.
Qed.

Lemma contains_first_char (s sub : string) (a : ascii) :
  DB.contains s (String a sub) = true -> In a (list_ascii_of_string s).
Proof.
  induction s as [|c s IH]; simpl; [discriminate|].
  destruct (ascii_dec a c) as [->|Hne]; [now left|].
  simpl. intros H. right. now apply IH.
Qed.

Lemma is_mineral_col_has_word (c : string) :
  DB.is_mineral_col c = true -> split c <> [].
Proof.
  unfold DB.is_mineral_col. intros H Hnil.
  apply andb_true_iff in H. destruct H as [H _].
  apply andb_true_iff in H. destruct H as [H _].
  apply split_from_nil in Hnil. destruct Hnil as [_ Hsp].
  rewrite forallb_forall in Hsp.
  apply orb_true_iff in H.
  destruct H as [H|H]; apply contains_first_char, Hsp in H; discriminate.
Qed.

Lemma mineral_of_returns (c : string) :
  DB.is_mineral_col c = true -> exists w, DB.mineral_of c = inr w.
Proof.
  intros H. apply is_mineral_col_has_word in H. unfold DB.mineral_of.
  destruct (existsb (String.eqb "as") (split c)); [eexists; reflexivity|].
  destruct (split c); [congruence | eexists; reflexivity].
Qed.

Lemma minerals_of_returns (cols : list string) :
  (forall c, In c cols -> DB.is_mineral_col c = true) ->
  exists minerals,
    DB.minerals_of cols = inr minerals /\
    List.length minerals = List.length cols.
Proof.
  induction cols as [|c cols IH]; intros H.
  - exists []. now split.
  - destruct (mineral_of_returns c (H c (or_introl eq_refl))) as [w Hw].
    destruct IH as [minerals [Hm Hlen]];
      [intros c' Hc'; apply H; now right|].
    exists (w :: minerals). simpl. rewrite Hw, Hm. split; [reflexivity|].
    simpl. now rewrite Hlen.
Qed.

(** X15.  [get_minerals] of [DB.py] never fails: every label it keeps has
    a word (it holds a unit in brackets), so [words[0]] is always there,
    and the function returns one name for each column whose label holds
    "(ug/l)" or "(mg/l)" and none of "Total", "," and ":". *)
Theorem X15_get_minerals_returns :
  forall df : DB.Frame,
    exists minerals,
      DB.get_minerals df = inr minerals /\
      List.length minerals
      = List.length (filter DB.is_mineral_col (DB.columns df)).
Proof.
  intros df. unfold DB.get_minerals. apply minerals_of_returns.
  intros c Hc. now apply filter_In in Hc.
Qed.

(** X16.  A name taken from a label without the word "as" always finds
    its column again: it is the first word of the label, so
    [select_topk_pairs] called with it matches that column and returns a
    frame for it. *)
Theorem X16_first_word_matches_its_column :
  forall (base : DB.Frame) (c : string) (k : Z),
    In c (DB.columns base) ->
    DB.is_mineral_col c = true ->
    existsb (String.eqb "as") (split c) = false ->
    exists w,
      DB.mineral_of c = inr w /\
      In c (DB.matched_mineral_cols base w) /\
      dict_get (DB.select_topk_pairs base w k) c
      = Some (DB.tmp base w k c).
Proof.
  intros base c k Hin Hcol Has.
  pose proof (is_mineral_col_has_word c Hcol) as Hword.
  unfold DB.mineral_of. rewrite Has.
  destruct (split c) as [|w rest] eqn:E; [congruence|].
  exists w. split; [reflexivity|].
  assert (Hmatch : In c (DB.matched_mineral_cols base w)).
  { unfold DB.matched_mineral_cols. apply filter_In. split; [assumption|].
    unfold split in E. apply split_from_first in E.
    destruct E as [pre [t ->]]. apply contains_append. }
  split; [exact Hmatch|].
  rewrite select_topk_pairs_get.
  assert (Hm : In c (DB.metrics base w)) by (apply metrics_In; now left).
  apply existsb_eqb_In in Hm. now rewrite Hm.
Qed.

Lemma X16_witness :
  exists w,
    DB.mineral_of "Calcium (mg/l)" = inr w /\
    In "Calcium (mg/l)" (DB.matched_mineral_cols Sample.base_two w) /\
    dict_get (DB.select_topk_pairs Sample.base_two w 5) "Calcium (mg/l)"
    = Some (DB.tmp Sample.base_two w 5 "Calcium (mg/l)").
Proof.
  assert (H1 : In "Calcium (mg/l)" (DB.columns Sample.base_two))
    by (simpl; right; right; left; reflexivity).
  assert (H2 : DB.is_mineral_col "Calcium (mg/l)" = true)
    by (vm_compute; reflexivity).
  assert (H3 : existsb (String.eqb "as") (split "Calcium (mg/l)") = false)
    by (vm_compute; reflexivity).
  exact (X16_first_word_matches_its_column Sample.base_two
           "Calcium (mg/l)" 5%Z H1 H2 H3).
Defined.

(** ** The pickled programs at start-up *)

Lemma default_mineral_In (D : string) (minerals : list string) :
  minerals <> [] -> In (default_mineral D minerals) minerals.
Proof.
  unfold default_mineral. destruct minerals as [|first rest]; [congruence|].
  intros _.
  destruct (existsb (String.eqb D) (first :: rest)) eqn:E.
  - now apply existsb_eqb_In.
  - now left.
Qed.

Lemma get_top_minerals (base : dict (dict DataFrame)) (k : Z) :
  Top20DB.get_minerals (Top20DB.get_top base k)
  = Top20DB.get_minerals base.
Proof.
  unfold Top20DB.get_minerals, Top20DB.get_top. rewrite map_map.
  apply map_ext. now intros [mineral sub].
Qed.




(** ** Tables that carry their own average *)

Lemma Rec_eta (r : Rec) :
  mkRec (keep r) (monthly_concentration r) (average_monthly_concentration r)
  = r.
Proof. now destruct r. Qed.



(** ** The ranking tables of the pickled programs *)

Lemma table_loop_20_returns (out : dict (list TableRow))
  (dfs : dict DataFrame) :
  (forall m d, In (m, d) dfs -> df_columns d = result_cols) ->
  exists tables,
    table_loop_20 out dfs = Returned tables /\
    forall label recs,
      In (label, recs) tables ->
      In (label, recs) out \/
      exists m d,
        In (m, d) dfs /\ label = table_label m /\
        recs = map table_row
                   (sort_values_desc
                      (drop_duplicates (map ranked_of (df_rows d)))).
Proof.
  revert out. induction dfs as [|[m d] dfs IH]; intros out H.
  - exists out. split; [reflexivity | now left].
  - simpl.
    rewrite (ranked_columns_result_cols d (H m d (or_introl eq_refl))).
    destruct (IH (dict_set out (table_label m)
                    (map table_row
                       (sort_values_desc
                          (drop_duplicates (map ranked_of (df_rows d)))))))
      as [tables [Ht Hall]]; [intros m' d' Hin; apply (H m' d'); now right|].
    exists tables. split; [exact Ht|].
    intros label recs Hin. destruct (Hall label recs Hin) as [Hl|Hr].
    + apply dict_set_In in Hl. destruct Hl as [Hl|Hl]; [|now left].
      inversion Hl; subst. right. exists m, d.
      repeat split. now left.
    + destruct Hr as [m' [d' [Hin' Hrest]]]. right. exists m', d'.
      split; [now right | exact Hrest].
Qed.

(** X20.  The ranking tables of the pickled programs: for a mineral of
    the pickle [build_table_data] returns, in [Top20DB.py] and in
    [20DB.py], tables whose records are the distinct (site, type, mean)
    rows of the selection of one of the mineral's tables, by descending
    mean; for a mineral the pickle lacks both raise [KeyError]. *)
Theorem X20_ranking_tables_of_the_pickle :
  forall (base : dict (dict DataFrame)) (k : Z) (mineral : string),
    (dict_get base mineral = None ->
     Top20DB.build_table_data (Top20DB.get_top base k) mineral
     = Raised (KeyError mineral) /\
     DB20.build_table_data (DB20.get_top base k) mineral
     = Raised (KeyError mineral)) /\
    (forall sub,
        dict_get base mineral = Some sub ->
        exists tables tables',
          Top20DB.build_table_data (Top20DB.get_top base k) mineral
          = Returned tables /\
          DB20.build_table_data (DB20.get_top base k) mineral
          = Returned tables' /\
          forall label recs,
            dict_get tables label = Some recs \/
            dict_get tables' label = Some recs ->
            exists name df tbl,
              In (name, df) sub /\
              label = table_label name /\
              recs = map table_row tbl /\
              ranked_table_of
                (map ranked_of (df_rows (Top20DB.tmp k df))) tbl).
Proof.
  intros base k mineral.
  unfold Top20DB.build_table_data, DB20.build_table_data, DB20.get_top.
  rewrite get_top_get. split.
  - intros E. rewrite E. now split.
  - intros sub E. rewrite E. cbn [option_map].
    assert (Hcols : forall m d,
               In (m, d) (map (fun it => (fst it, Top20DB.tmp k (snd it)))
                              sub) ->
               df_columns d = result_cols).
    { intros m d Hd. apply in_map_iff in Hd.
      destruct Hd as [[name df] [Heq _]]. inversion Heq. reflexivity. }
    destruct (table_loop_returns [] _ Hcols) as [tables [Ht Hall]].
    destruct (table_loop_20_returns [] _ Hcols) as [tables' [Ht' Hall']].
    exists tables, tables'. split; [exact Ht|]. split; [exact Ht'|].
    intros label recs [Hget|Hget]; apply dict_get_In in Hget.
    + destruct (Hall label recs Hget) as [[]|[m [d [Hin [Hl Hr]]]]].
      apply in_map_iff in Hin. destruct Hin as [[name df] [Heq Hin]].
      cbn [fst snd] in Heq. injection Heq as Hm Hd. subst m d label recs.
      exists name, df. eexists. split; [exact Hin|].
      split; [reflexivity|]. split; [reflexivity|]. apply sort_then_drop.
    + destruct (Hall' label recs Hget) as [[]|[m [d [Hin [Hl Hr]]]]].
      apply in_map_iff in Hin. destruct Hin as [[name df] [Heq Hin]].
      cbn [fst snd] in Heq. injection Heq as Hm Hd. subst m d label recs.
      exists name, df. eexists. split; [exact Hin|].
      split; [reflexivity|]. split; [reflexivity|]. apply drop_then_sort.
Qed.

Lemma X20_witness :
  dict_get Sample.raw_base "Magnesium" = Some [("Total", Sample.df_sites)] /\
  exists tables tables',
    Top20DB.build_table_data (Top20DB.get_top Sample.raw_base 5) "Magnesium"
    = Returned tables /\
    DB20.build_table_data (DB20.get_top Sample.raw_base 5) "Magnesium"
    = Returned tables'.
Proof.
  assert (H : dict_get Sample.raw_base "Magnesium"
              = Some [("Total", Sample.df_sites)]) by reflexivity.
  split; [exact H|].
  destruct (proj2 (X20_ranking_tables_of_the_pickle
                     Sample.raw_base 5%Z "Magnesium") _ H)
    as [tables [tables' [Ht [Ht' _]]]].
  exists tables, tables'. now split.
Defined.
